(** * Kaas front end: settings / prompt / remote-model synchronisation

    A shallow embedding of the state-synchronisation logic of
    [src/pages/Settings.tsx], the prompt grid ([PromptGrid]),
    [src/components/forms/RemoteModelsSelector.tsx] and
    [src/components/ModelFormDialog.tsx].

    React components are modelled by their state and by the handlers they
    register: a handler is a function from the state before the event to the
    state after it.  Toasts and log entries are appended to a trace of
    signals; the react-query cache is a finite map from query keys to the
    cached collection. *)

From Stdlib Require Import ZArith QArith.
From stdpp Require Import base option list gmap strings pretty sorting.

Local Open Scope string_scope.
Local Open Scope list_scope.
Local Open Scope Z_scope.

(** ** Types of ['@/lib/types'] as the components use them *)

(** [Prompt]: the fields the grid reads ([prompt.id], [prompt.alias],
    [prompt.content], [prompt.createdAt], the last one possibly missing). *)
Module Prompt.
Record Prompt := {
  id : Z;
  alias : string;
  content : string;
  createdAt : option string;
}.
End Prompt.
Abbreviation Prompt := Prompt.Prompt.

(** [NewPrompt]: a prompt before the backend gave it an id. *)
Module NewPrompt.
Record NewPrompt := {
  alias : string;
  content : string;
}.
End NewPrompt.
Abbreviation NewPrompt := NewPrompt.NewPrompt.

(** An entry of the list [listRemoteModels] returns. *)
Module RemoteModel.
Record RemoteModel := {
  id : string;
  created : Z;
}.
End RemoteModel.
Abbreviation RemoteModel := RemoteModel.RemoteModel.

(** [ProxySetting]: the fields of the proxy form ([on], [server], [http],
    [https], [username], [password]). *)
Module ProxySetting.
Record ProxySetting := {
  on : bool;
  server : string;
  http : bool;
  https : bool;
  username : string;
  password : string;
}.
End ProxySetting.
Abbreviation ProxySetting := ProxySetting.ProxySetting.

(** The variables of the upsert-setting mutation: [{ key, value }]. *)
Module Setting.
Record Setting := {
  key : string;
  value : string;
}.
End Setting.
Abbreviation Setting := Setting.Setting.

(** The error a rejected backend command carries ([error.message]). *)
Record CommandError := { message : string }.

(** ** JavaScript numbers

    A number is NaN, an infinity or a finite value; a finite double is a
    rational, and the checks below only compare it and ask whether it is an
    integer. *)
Inductive JSNumber :=
| NaN
| Infinity (negative : bool)
| Finite (q : Q).

(** [Number.isInteger]. *)
Definition Number_isInteger (n : JSNumber) : bool :=
  match n with
  | Finite q => bool_decide (Qden (Qred q) = 1%positive)
  | _ => false
  end.

(** ** Query keys and the collaborators the components call *)

(** A react-query key is an array of strings. *)
Abbreviation QueryKey := (list string).

(** What the components import and this repository's sources do not hold:
    the localisation catalogue ([t] of react-i18next, with its interpolation
    values), the constants of ['@/lib/hooks'] and ['@/lib/constants'] that
    are not in the constants file, [JSON.stringify] at the types it is
    applied to, and the ECMAScript conversions [Number(...)] (applied to the
    value of an input element, [undefined] when the ref is empty) and
    [Number.prototype.toString]. *)
Class Externals := {
  t : string → list (string * string) → string;
  LIST_PROMPTS_KEY : QueryKey;
  SETTING_MODELS_CONTEXT_LENGTH : string;
  SETTING_NETWORK_PROXY : string;
  JSON_NewPrompt : NewPrompt → string;
  JSON_Prompt : Prompt → string;
  JSON_number : Z → string;
  JSON_ProxySetting : ProxySetting → string;
  Number_ : option string → JSNumber;
  Number_toString : JSNumber → string;
}.

(** Constants of ['@/lib/constants'] that the constants file gives. *)
Definition PROVIDER_OPENAI : string := "OpenAI".
Definition PROVIDER_AZURE : string := "Azure".
Definition SETTING_MODELS_MAX_TOKENS : string := "models:max_tokens".

(** ** Signals and the world the handlers act on *)

(** What a handler shows or logs: [toast.success], [toast.error],
    [log.error] and [console.log]. *)
Inductive Signal :=
| ToastSuccess (msg : string)
| ToastError (msg : string)
| LogError (msg : string)
| ConsoleLog (msg : string).

(** The entity cache is the react-query cache (the prompt collection under
    its query key) together with the settings of the application store.
    [signals] is the trace of toasts and log entries, oldest first.  The two
    dialog refs of the prompt grid are [None] while no dialog is mounted
    ([ref.current] is [null]) and hold the dialog's open flag otherwise. *)
Record World := {
  queryCache : gmap QueryKey (list Prompt);
  settings : gmap string string;
  signals : list Signal;
  newPromptDialogRef : option bool;
  editPromptDialogRef : option bool;
}.

Definition with_queryCache (c : gmap QueryKey (list Prompt)) (w : World) : World :=
  {| queryCache := c; settings := settings w; signals := signals w;
     newPromptDialogRef := newPromptDialogRef w;
     editPromptDialogRef := editPromptDialogRef w |}.

Definition with_settings (s : gmap string string) (w : World) : World :=
  {| queryCache := queryCache w; settings := s; signals := signals w;
     newPromptDialogRef := newPromptDialogRef w;
     editPromptDialogRef := editPromptDialogRef w |}.

Definition emit (s : Signal) (w : World) : World :=
  {| queryCache := queryCache w; settings := settings w;
     signals := signals w ++ [s];
     newPromptDialogRef := newPromptDialogRef w;
     editPromptDialogRef := editPromptDialogRef w |}.

(** [ref.current?.close()]: nothing happens on an empty ref. *)
Definition close_newPromptDialog (w : World) : World :=
  {| queryCache := queryCache w; settings := settings w; signals := signals w;
     newPromptDialogRef := (λ _, false) <$> newPromptDialogRef w;
     editPromptDialogRef := editPromptDialogRef w |}.

Definition close_editPromptDialog (w : World) : World :=
  {| queryCache := queryCache w; settings := settings w; signals := signals w;
     newPromptDialogRef := newPromptDialogRef w;
     editPromptDialogRef := (λ _, false) <$> editPromptDialogRef w |}.

(** A view that is torn down: its refs are cleared. *)
Definition unmount (w : World) : World :=
  {| queryCache := queryCache w; settings := settings w; signals := signals w;
     newPromptDialogRef := None; editPromptDialogRef := None |}.

(** [queryClient.setQueryData(key, updater)]: the updater gets the cached
    value or [undefined]; an [undefined] result writes nothing. *)
Definition setQueryData (key : QueryKey)
    (updater : option (list Prompt) → option (list Prompt)) (w : World) : World :=
  match updater (queryCache w !! key) with
  | Some data => with_queryCache (<[key := data]> (queryCache w)) w
  | None => w
  end.

(** The outcome of a backend command. *)
Inductive Outcome (A : Type) :=
| Resolved (data : A)
| Rejected (error : CommandError).
Arguments Resolved {A} data.
Arguments Rejected {A} error.

(** [Array.prototype.findIndex]; [None] stands for [-1]. *)
Fixpoint findIndex {A : Type} (f : A → bool) (l : list A) : option nat :=
  match l with
  | [] => None
  | x :: l' => if f x then Some 0%nat else S <$> findIndex f l'
  end.

(** * The prompt grid *)
Module PromptGrid.
Section prompt_grid.
Context `{!Externals}.

(** The three cache patches, as the updaters handed to [setQueryData]. *)
Definition create_patch (prompt : Prompt) (old : option (list Prompt))
    : option (list Prompt) :=
  match old with
  | Some old => Some (old ++ [prompt])
  | None => Some [prompt]
  end.

(** [produce(old, draft => ...)] on an absent collection runs the recipe on
    [undefined] and gives [undefined] back. *)
Definition update_patch (prompt : Prompt) (old : option (list Prompt))
    : option (list Prompt) :=
  match old with
  | Some draft =>
      match findIndex (λ p, bool_decide (Prompt.id p = Prompt.id prompt)) draft with
      | Some index => Some (<[index := prompt]> draft)
      | None => Some draft
      end
  | None => None
  end.

Definition delete_patch (prompt : Prompt) (old : option (list Prompt))
    : option (list Prompt) :=
  match old with
  | Some draft => Some (filter (λ p, Prompt.id p ≠ Prompt.id prompt) draft)
  | None => None
  end.

(** The handlers given to [usePromptCreator]. *)
Definition creator_onSuccess (prompt : Prompt) (w : World) : World :=
  let w := setQueryData LIST_PROMPTS_KEY (create_patch prompt) w in
  let w := emit (ToastSuccess (t "page-prompts:message:create-prompt-success" [])) w in
  close_newPromptDialog w.

Definition creator_onError (error : CommandError) (variables : NewPrompt)
    (w : World) : World :=
  let w := emit (LogError ("Failed to create prompt: data = "
                           +:+ JSON_NewPrompt variables
                           +:+ ", error = " +:+ message error)) w in
  emit (ToastError ("Failed to create prompt: " +:+ message error)) w.

(** The handlers given to [usePromptUpdater]. *)
Definition updater_onSuccess (prompt : Prompt) (w : World) : World :=
  let w := setQueryData LIST_PROMPTS_KEY (update_patch prompt) w in
  let w := emit (ToastSuccess (t "page-prompts:message:update-prompt-success" [])) w in
  close_editPromptDialog w.

Definition updater_onError (error : CommandError) (variables : Prompt)
    (w : World) : World :=
  let w := emit (ConsoleLog (message error)) w in
  let w := emit (LogError ("Failed to update prompt: data = "
                           +:+ JSON_Prompt variables
                           +:+ ", error = " +:+ message error)) w in
  emit (ToastError ("Failed to update prompt: " +:+ message error)) w.

(** The handlers given to [usePromptDeleter]; the command is called with
    [prompt.id] and answers with a value that has an [id]. *)
Definition deleter_onSuccess (prompt : Prompt) (w : World) : World :=
  let w := setQueryData LIST_PROMPTS_KEY (delete_patch prompt) w in
  let w := emit (ToastSuccess (t "page-prompts:message:delete-prompt-success" [])) w in
  close_editPromptDialog w.

Definition deleter_onError (error : CommandError) (variables : Z)
    (w : World) : World :=
  let w := emit (LogError ("Failed to delete prompt: data = "
                           +:+ JSON_number variables
                           +:+ ", error = " +:+ message error)) w in
  emit (ToastError ("Failed to delete prompt: " +:+ message error)) w.

(** Modelled from the spec: the hooks [usePromptCreator], [usePromptUpdater]
    and [usePromptDeleter] of ['@/lib/hooks'] are not in the sources.  Spec
    4.2: the Persistence Gateway operation is invoked with the payload; on
    success the success handler runs on the returned value, on failure the
    failure handler runs on the error and the payload. *)
Definition creator (variables : NewPrompt) (outcome : Outcome Prompt)
    (w : World) : World :=
  match outcome with
  | Resolved prompt => creator_onSuccess prompt w
  | Rejected error => creator_onError error variables w
  end.

Definition updater (variables : Prompt) (outcome : Outcome Prompt)
    (w : World) : World :=
  match outcome with
  | Resolved prompt => updater_onSuccess prompt w
  | Rejected error => updater_onError error variables w
  end.

Definition deleter (variables : Z) (outcome : Outcome Prompt)
    (w : World) : World :=
  match outcome with
  | Resolved prompt => deleter_onSuccess prompt w
  | Rejected error => deleter_onError error variables w
  end.

(** The cached prompt collection and its length ([0] while absent). *)
Definition cached_prompts (w : World) : option (list Prompt) :=
  queryCache w !! LIST_PROMPTS_KEY.

Definition collection_length (c : option (list Prompt)) : nat :=
  match c with
  | Some l => length l
  | None => 0%nat
  end.

(** No two cached prompts share an id. *)
Definition unique_ids (c : option (list Prompt)) : Prop :=
  match c with
  | Some l => NoDup (Prompt.id <$> l)
  | None => True
  end.

(** The id is not in the cached collection. *)
Definition fresh_id (i : Z) (c : option (list Prompt)) : Prop :=
  match c with
  | Some l => i ∉ (Prompt.id <$> l)
  | None => True
  end.

(** *** Facts about the patches *)

Lemma findIndex_Some {A : Type} (f : A → bool) (l : list A) (i : nat) :
  findIndex f l = Some i → ∃ x, l !! i = Some x ∧ f x = true.
Proof.
  revert i. induction l as [|y l IH]; intros i; simpl; [done|].
  destruct (f y) eqn:Hy.
  - intros [= <-]. eauto.
  - destruct (findIndex f l) as [j|]; simpl; [|done].
    intros [= <-]. apply IH. done.
Qed.

Lemma cached_prompts_setQueryData f w :
  cached_prompts (setQueryData LIST_PROMPTS_KEY f w) =
    match f (cached_prompts w) with
    | Some data => Some data
    | None => cached_prompts w
    end.
Proof.
  unfold cached_prompts, setQueryData.
  destruct (f (queryCache w !! LIST_PROMPTS_KEY)); simpl; [|done].
  apply lookup_insert_eq.
Qed.

Lemma cached_prompts_creator_onSuccess p w :
  cached_prompts (creator_onSuccess p w) = create_patch p (cached_prompts w).
Proof.
  unfold creator_onSuccess.
  change (cached_prompts (close_newPromptDialog ?w)) with (cached_prompts w).
  change (cached_prompts (emit ?s ?w)) with (cached_prompts w).
  rewrite cached_prompts_setQueryData. by destruct (cached_prompts w).
Qed.

Lemma cached_prompts_updater_onSuccess p w :
  cached_prompts (updater_onSuccess p w) = update_patch p (cached_prompts w).
Proof.
  unfold updater_onSuccess.
  change (cached_prompts (close_editPromptDialog ?w)) with (cached_prompts w).
  change (cached_prompts (emit ?s ?w)) with (cached_prompts w).
  rewrite cached_prompts_setQueryData.
  destruct (cached_prompts w) as [l|]; simpl; [|done].
  by destruct (findIndex _ l).
Qed.

Lemma cached_prompts_deleter_onSuccess p w :
  cached_prompts (deleter_onSuccess p w) = delete_patch p (cached_prompts w).
Proof.
  unfold deleter_onSuccess.
  change (cached_prompts (close_editPromptDialog ?w)) with (cached_prompts w).
  change (cached_prompts (emit ?s ?w)) with (cached_prompts w).
  rewrite cached_prompts_setQueryData. by destruct (cached_prompts w).
Qed.

(** Replacing the entry found by id leaves the list of ids as it was. *)
Lemma update_patch_ids p l :
  Prompt.id <$> default l (update_patch p (Some l)) = Prompt.id <$> l.
Proof.
  simpl. destruct (findIndex _ l) as [i|] eqn:Hi; simpl; [|done].
  apply findIndex_Some in Hi as (x & Hx & Hid).
  apply bool_decide_eq_true in Hid.
  rewrite list_fmap_insert, <- Hid. apply list_insert_id.
  by rewrite list_lookup_fmap, Hx.
Qed.

Lemma create_patch_unique p c :
  unique_ids c → fresh_id (Prompt.id p) c → unique_ids (create_patch p c).
Proof.
  destruct c as [l|]; simpl; intros Hl Hp.
  - rewrite fmap_app. apply NoDup_app. split_and!; [done| |apply NoDup_singleton].
    intros i Hi ->%list_elem_of_singleton. done.
  - apply NoDup_singleton.
Qed.

Lemma update_patch_unique p c : unique_ids c → unique_ids (update_patch p c).
Proof.
  destruct c as [l|]; [|done]. intros Hl.
  pose proof (update_patch_ids p l) as Hids. simpl in *.
  destruct (findIndex _ l); simpl in *; [|done]. by rewrite Hids.
Qed.

Lemma delete_patch_unique p c : unique_ids c → unique_ids (delete_patch p c).
Proof.
  destruct c as [l|]; [|done]. simpl. intros Hl.
  eapply sublist_NoDup; [exact Hl|]. apply fmap_sublist, sublist_filter.
Qed.

(** *** Claims about the prompt grid *)

(** C2. A successful create-prompt operation makes the cached prompt
    collection exactly one longer, also when the collection was empty or
    absent before (an absent collection counts as length 0), and the new
    collection holds an entry whose id is the id of the prompt the backend
    returned. *)
Theorem create_success_adds_one (variables : NewPrompt) (prompt : Prompt) (w : World) :
  let w' := creator variables (Resolved prompt) w in
  ∃ l', cached_prompts w' = Some l'
    ∧ length l' = S (collection_length (cached_prompts w))
    ∧ ∃ p, p ∈ l' ∧ Prompt.id p = Prompt.id prompt.
Proof.
  simpl. rewrite cached_prompts_creator_onSuccess.
  destruct (cached_prompts w) as [l|]; simpl.
  - exists (l ++ [prompt]). split_and!; [done| |].
    + rewrite length_app. simpl. lia.
    + exists prompt. split; [|done]. apply elem_of_app. right. by left.
  - exists [prompt]. split_and!; [done..|]. exists prompt. split; [by left|done].
Qed.

(** C7. If no two cached prompts share an id, then none do after a
    successful create whose returned prompt has an id not yet in the cache,
    after a successful update (replace by id), and after a successful delete
    (remove by id). *)
Theorem patches_keep_ids_unique (w : World) :
  unique_ids (cached_prompts w) →
  (∀ v p, fresh_id (Prompt.id p) (cached_prompts w) →
          unique_ids (cached_prompts (creator v (Resolved p) w)))
  ∧ (∀ v p, unique_ids (cached_prompts (updater v (Resolved p) w)))
  ∧ (∀ v p, unique_ids (cached_prompts (deleter v (Resolved p) w))).
Proof.
  intros Hw. split_and!; simpl.
  - intros _ p Hp. rewrite cached_prompts_creator_onSuccess.
    by apply create_patch_unique.
  - intros _ p. rewrite cached_prompts_updater_onSuccess.
    by apply update_patch_unique.
  - intros _ p. rewrite cached_prompts_deleter_onSuccess.
    by apply delete_patch_unique.
Qed.

End prompt_grid.
End PromptGrid.

(** * Validation with zod, as the settings page uses it *)
Module Zod.
Section zod.
Context `{!Externals}.

(** The checks chained on [z.coerce.number()]. *)
Inductive Check :=
| int
| min (value : Z)
| max (value : Z).

Inductive Issue :=
| invalid_type
| not_an_integer
| too_small
| too_big.

Inductive SafeParseResult :=
| Success (data : JSNumber)
| Failure (issues : list Issue).

(** [data < value] and [data > value] on JavaScript numbers. *)
Definition Number_lt (data : JSNumber) (value : Z) : bool :=
  match data with
  | NaN => false
  | Infinity negative => negative
  | Finite q => negb (Qle_bool (inject_Z value) q)
  end.

Definition Number_gt (data : JSNumber) (value : Z) : bool :=
  match data with
  | NaN => false
  | Infinity negative => negb negative
  | Finite q => negb (Qle_bool q (inject_Z value))
  end.

(** One check: [int] asks [Number.isInteger]; [min] and [max] are
    inclusive bounds. *)
Definition run_check (data : JSNumber) (c : Check) : option Issue :=
  match c with
  | int => if Number_isInteger data then None else Some not_an_integer
  | min value => if Number_lt data value then Some too_small else None
  | max value => if Number_gt data value then Some too_big else None
  end.

(** [z.coerce.number().<checks>.safeParse(input)]: the input is coerced with
    [Number(input)]; NaN is not a number for zod and stops the parse; every
    check then runs and the parse succeeds when none raised an issue. *)
Definition safeParse (checks : list Check) (input : option string)
    : SafeParseResult :=
  let data := Number_ input in
  match data with
  | NaN => Failure [invalid_type]
  | _ =>
      match omap (run_check data) checks with
      | [] => Success data
      | issues => Failure issues
      end
  end.

(** The input coerces to an integer between [lo] and [hi]. *)
Definition coerces_to_integer_in (lo hi : Z) (input : option string) : Prop :=
  ∃ (n : Z) (q : Q), Number_ input = Finite q ∧ (q == inject_Z n)%Q ∧ lo ≤ n ≤ hi.

Lemma Qred_inject_Z (n : Z) : Qred (inject_Z n) = inject_Z n.
Proof.
  unfold Qred, inject_Z.
  pose proof (Z.ggcd_gcd n 1) as Hg.
  pose proof (Z.ggcd_correct_divisors n 1) as Hd.
  destruct (Z.ggcd n 1) as [g [aa bb]]. simpl in *.
  rewrite Z.gcd_1_r in Hg. subst g. destruct Hd as [-> Hb].
  assert (bb = 1) as -> by lia. f_equal. lia.
Qed.

Lemma isInteger_Finite (q : Q) :
  Number_isInteger (Finite q) = true ↔ ∃ n : Z, (q == inject_Z n)%Q.
Proof.
  simpl. rewrite bool_decide_eq_true. split.
  - intros Hden. exists (Qnum (Qred q)).
    rewrite <- (Qred_correct q) at 1.
    destruct (Qred q) as [num den]. simpl in *. by subst den.
  - intros [n Hn]. apply Qred_complete in Hn.
    rewrite Hn, Qred_inject_Z. done.
Qed.

Lemma safeParse_range_Success lo hi input data :
  safeParse [int; min lo; max hi] input = Success data ↔
  data = Number_ input ∧ coerces_to_integer_in lo hi input.
Proof.
  unfold safeParse, coerces_to_integer_in.
  destruct (Number_ input) as [|negative|q] eqn:Hq.
  - split; [done|]. intros (_ & n & q & ? & _). done.
  - split; [|intros (_ & n & q & ? & _); done].
    simpl. by destruct negative.
  - cbn [omap list_omap run_check Number_lt Number_gt].
    destruct (Number_isInteger (Finite q)) eqn:Hint.
    + apply isInteger_Finite in Hint as [n Hn].
      destruct (Qle_bool (inject_Z lo) q) eqn:Hlo; simpl;
        destruct (Qle_bool q (inject_Z hi)) eqn:Hhi; simpl.
      * apply Qle_bool_iff in Hlo, Hhi. rewrite Hn in Hlo, Hhi.
        rewrite <- Zle_Qle in Hlo, Hhi.
        split; [intros [= <-]|intros [-> _]; done].
        split; [done|]. exists n, q. done.
      * split; [done|]. intros (_ & m & q' & [= <-] & Hm & Hr).
        assert (Qle_bool q (inject_Z hi) = true) as Hc; [|congruence].
        apply Qle_bool_iff. rewrite Hm, <- Zle_Qle. lia.
      * split; [done|]. intros (_ & m & q' & [= <-] & Hm & Hr).
        assert (Qle_bool (inject_Z lo) q = true) as Hc; [|congruence].
        apply Qle_bool_iff. rewrite Hm, <- Zle_Qle. lia.
      * split; [done|]. intros (_ & m & q' & [= <-] & Hm & Hr).
        assert (Qle_bool (inject_Z lo) q = true) as Hc; [|congruence].
        apply Qle_bool_iff. rewrite Hm, <- Zle_Qle. lia.
    + split.
      * destruct (negb _), (negb _); done.
      * intros (_ & m & q' & [= <-] & Hm & _).
        assert (Number_isInteger (Finite q) = true) as Hc; [|congruence].
        apply isInteger_Finite. eauto.
Qed.

Lemma safeParse_range_Failure lo hi input :
  ¬ coerces_to_integer_in lo hi input →
  ∃ issues, safeParse [int; min lo; max hi] input = Failure issues.
Proof.
  intros Hno.
  destruct (safeParse [int; min lo; max hi] input) as [data|issues] eqn:Hp;
    [|eauto].
  apply safeParse_range_Success in Hp as [_ ?]. done.
Qed.

End zod.
End Zod.

(** * The settings page *)
Module Settings.
Section settings.
Context `{!Externals}.

(** [updateSetting] of the application store: set by key. *)
Definition updateSetting (s : Setting) (w : World) : World :=
  with_settings (<[Setting.key s := Setting.value s]> (settings w)) w.

(** The two handlers [useUpsertSetting] registers; [onSuccess] is the
    caller's callback (the empty function by default). *)
Definition upsert_onSuccess (successMsg : string) (onSuccess : World → World)
    (w : World) : World :=
  let w := onSuccess w in
  emit (ToastSuccess successMsg) w.

Definition upsert_onError (failureMsg : string) (error : CommandError)
    (variables : Setting) (w : World) : World :=
  let errMsg := "Upserting settings failed: key = " +:+ Setting.key variables
                +:+ ", value = " +:+ Setting.value variables
                +:+ ", " +:+ message error in
  let w := emit (LogError errMsg) w in
  emit (ToastError failureMsg) w.

(** Modelled from the spec: the hook [useUpsertSettingMutation] of
    ['@/lib/hooks'] is not in the sources.  Spec 4.2: [mutate] invokes
    [upsertSetting] with the variables; on success the success handler runs,
    on failure the failure handler runs on the error and the variables. *)
Definition useUpsertSetting (successMsg failureMsg : string)
    (onSuccess : World → World) (variables : Setting)
    (outcome : Outcome Setting) (w : World) : World :=
  match outcome with
  | Resolved _ => upsert_onSuccess successMsg onSuccess w
  | Rejected error => upsert_onError failureMsg error variables w
  end.

(** ** Context length and max tokens *)

(** The state of a numeric setting card: the value of the input element the
    ref points to ([ref.current?.value], [None] for an empty ref) and the
    error shown under the field. *)
Record NumberCard := {
  inputValue : option string;
  error : string;
}.

Definition setError (msg : string) (c : NumberCard) : NumberCard :=
  {| inputValue := inputValue c; error := msg |}.

(** [SettingContextLength.onSaveClick]: the card after the click and the
    variables [updater] is called with, if it is called. *)
Definition SettingContextLength_onSaveClick (c : NumberCard)
    : NumberCard * option Setting :=
  let ctxLengthLabel := t "page-settings:label:context-length" [] in
  match Zod.safeParse [Zod.int; Zod.min 0; Zod.max 65535] (inputValue c) with
  | Zod.Failure _ =>
      (setError (t "error:validation:invalid-int-minmax"
                   [("value", ctxLengthLabel); ("min", "0"); ("max", "65535")]) c,
       None)
  | Zod.Success data =>
      (c, Some {| Setting.key := SETTING_MODELS_CONTEXT_LENGTH;
                  Setting.value := Number_toString data |})
  end.

(** [SettingMaxTokens.onSaveClick]. *)
Definition SettingMaxTokens_onSaveClick (c : NumberCard)
    : NumberCard * option Setting :=
  let maxTokensLabel := t "page-settings:label:max-tokens" [] in
  match Zod.safeParse [Zod.int; Zod.min 1; Zod.max 65535] (inputValue c) with
  | Zod.Failure _ =>
      (setError (t "error:validation:invalid-int-minmax"
                   [("value", maxTokensLabel); ("min", "1"); ("max", "65535")]) c,
       None)
  | Zod.Success data =>
      (c, Some {| Setting.key := SETTING_MODELS_MAX_TOKENS;
                  Setting.value := Number_toString data |})
  end.

(** ** The proxy card *)

(** [proxySetting] is the saved setting ([useProxySetting]), [formValues]
    what [form.getValues()] gives, and [effectDeps] the values of
    [proxySetting.on] and [useProxy] the auto-save effect last ran with
    ([None] before the first render; the other two dependencies, [form] and
    [updater], keep their identity between renders). *)
Record ProxyCard := {
  proxySetting : ProxySetting;
  formValues : ProxySetting;
  effectDeps : option (bool * bool);
}.

(** [useWatch({ name: 'on' })]. *)
Definition useProxy (c : ProxyCard) : bool := ProxySetting.on (formValues c).

Definition set_on (checked : bool) (p : ProxySetting) : ProxySetting :=
  {| ProxySetting.on := checked;
     ProxySetting.server := ProxySetting.server p;
     ProxySetting.http := ProxySetting.http p;
     ProxySetting.https := ProxySetting.https p;
     ProxySetting.username := ProxySetting.username p;
     ProxySetting.password := ProxySetting.password p |}.

(** The auto-save effect, run after a render: React runs it when a
    dependency changed since it last ran.  The result is the card and the
    calls of [updater] the effect made. *)
Definition autoSave_effect (c : ProxyCard) : ProxyCard * list Setting :=
  let deps := (ProxySetting.on (proxySetting c), useProxy c) in
  if decide (effectDeps c = Some deps) then (c, [])
  else
    ({| proxySetting := proxySetting c; formValues := formValues c;
        effectDeps := Some deps |},
     if ProxySetting.on (proxySetting c) && negb (useProxy c)
     then [ {| Setting.key := SETTING_NETWORK_PROXY;
               Setting.value := JSON_ProxySetting (formValues c) |} ]
     else []).

(** The switch: [field.onChange(checked)] sets the form's [on], the card
    renders again and its effect runs. *)
Definition onCheckedChange (checked : bool) (c : ProxyCard)
    : ProxyCard * list Setting :=
  autoSave_effect
    {| proxySetting := proxySetting c;
       formValues := set_on checked (formValues c);
       effectDeps := effectDeps c |}.

(** The save button: [onSubmit] calls [updater] with the form data. *)
Definition onSubmit (formData : ProxySetting) : list Setting :=
  [ {| Setting.key := SETTING_NETWORK_PROXY;
       Setting.value := JSON_ProxySetting formData |} ].

(** A card that has rendered and run its effect. *)
Definition rendered (c : ProxyCard) : Prop :=
  effectDeps c = Some (ProxySetting.on (proxySetting c), useProxy c).

(** *** Claims about the settings page *)

(** C3. The context-length save action calls the upsert mutation exactly
    when the raw input coerces to an integer in [0, 65535], the max-tokens
    save action exactly when it coerces to an integer in [1, 65535]; the
    value forwarded is that number as a string.  Any other input sets the
    field error and the mutation is not called. *)
Theorem numeric_save_iff_in_range (c : NumberCard) :
  let ctx := SettingContextLength_onSaveClick c in
  let tok := SettingMaxTokens_onSaveClick c in
  (Zod.coerces_to_integer_in 0 65535 (inputValue c) ↔
     ctx.2 = Some {| Setting.key := SETTING_MODELS_CONTEXT_LENGTH;
                     Setting.value := Number_toString (Number_ (inputValue c)) |})
  ∧ (¬ Zod.coerces_to_integer_in 0 65535 (inputValue c) ↔
     ctx.2 = None
     ∧ error ctx.1 = t "error:validation:invalid-int-minmax"
                       [("value", t "page-settings:label:context-length" []);
                        ("min", "0"); ("max", "65535")])
  ∧ (Zod.coerces_to_integer_in 1 65535 (inputValue c) ↔
     tok.2 = Some {| Setting.key := SETTING_MODELS_MAX_TOKENS;
                     Setting.value := Number_toString (Number_ (inputValue c)) |})
  ∧ (¬ Zod.coerces_to_integer_in 1 65535 (inputValue c) ↔
     tok.2 = None
     ∧ error tok.1 = t "error:validation:invalid-int-minmax"
                       [("value", t "page-settings:label:max-tokens" []);
                        ("min", "1"); ("max", "65535")]).
Proof.
  unfold SettingContextLength_onSaveClick, SettingMaxTokens_onSaveClick.
  cbv zeta.
  destruct (Zod.safeParse [Zod.int; Zod.min 0; Zod.max 65535] (inputValue c))
    as [d0|i0] eqn:H0;
  destruct (Zod.safeParse [Zod.int; Zod.min 1; Zod.max 65535] (inputValue c))
    as [d1|i1] eqn:H1; simpl.
  all: repeat match goal with
    | Hs : Zod.safeParse _ _ = Zod.Success _ |- _ =>
        apply Zod.safeParse_range_Success in Hs as [-> ?]
    | Hf : Zod.safeParse [_; Zod.min ?lo; _] ?i = Zod.Failure _ |- _ =>
        assert (¬ Zod.coerces_to_integer_in lo 65535 i)
          by (intros Hyes;
              pose proof (proj2 (Zod.safeParse_range_Success lo 65535 i (Number_ i))
                            (conj eq_refl Hyes)); congruence);
        clear Hf
    end.
  all: split_and!; split; try done; try tauto; intros []; done.
Qed.

(** The effect makes no call while the switch is on, whatever the card. *)
Lemma no_autosave_while_on (c : ProxyCard) :
  useProxy c = true → (autoSave_effect c).2 = [].
Proof.
  unfold autoSave_effect. intros ->. case_decide; [done|]. simpl.
  by rewrite andb_false_r.
Qed.


(** C6, as amended.  When the saved proxy setting is on and the form's
    switch goes from on to off, the effect calls the upsert of the proxy
    setting once, with the current form values, whose [on] is false, and no
    save action is involved; turning the switch on never makes such a
    call. *)
Theorem proxy_autosave_on_turn_off (c : ProxyCard) :
  rendered c →
  ProxySetting.on (proxySetting c) = true →
  useProxy c = true →
  (onCheckedChange false c).2 =
    [ {| Setting.key := SETTING_NETWORK_PROXY;
         Setting.value := JSON_ProxySetting (set_on false (formValues c)) |} ]
  ∧ ProxySetting.on (set_on false (formValues c)) = false
  ∧ formValues (onCheckedChange false c).1 = set_on false (formValues c)
  ∧ ∀ c', (onCheckedChange true c').2 = [].
Proof.
  unfold rendered. intros Hdeps Hsaved Hon.
  split_and!; [| done | |].
  - unfold onCheckedChange, autoSave_effect, useProxy. simpl.
    rewrite Hdeps, Hsaved, Hon. case_decide as Heq; [by inversion Heq|done].
  - unfold onCheckedChange, autoSave_effect. simpl. by case_decide.
  - intros c'. unfold onCheckedChange. by apply no_autosave_while_on.
Qed.

End settings.
End Settings.

(** * The remote models selector *)
Module RemoteModelsSelector.
Section remote_models_selector.
Context `{!Externals}.

(** [Array.prototype.sort(compareFn)]: the sort is stable, so with a
    consistent comparison the result is the one of inserting each element,
    from the last to the first, in front of the first element it does not
    compare greater than. *)
Fixpoint sort_insert {A : Type} (compareFn : A → A → Z) (x : A) (l : list A)
    : list A :=
  match l with
  | [] => [x]
  | y :: l' =>
      if bool_decide (compareFn x y ≤ 0) then x :: y :: l'
      else y :: sort_insert compareFn x l'
  end.

Definition Array_sort {A : Type} (compareFn : A → A → Z) (l : list A) : list A :=
  foldr (sort_insert compareFn) [] l.

(** [select: (raw) => raw.sort((a, b) => b.created - a.created)]. *)
Definition select (raw : list RemoteModel) : list RemoteModel :=
  Array_sort (λ a b, RemoteModel.created b - RemoteModel.created a) raw.

(** The selector: its props, its [enabled] state, and the part of the
    enclosing form it reads and writes (the values of [apiKey] and [model]
    and the field errors). *)
Record Selector := {
  provider : string;
  apiKey : string;
  enabled : bool;
  form_apiKey : string;
  form_model : option string;
  form_errors : gmap string string;
}.

(** [useState(enabledByDefault)] on the first render. *)
Definition mount (provider apiKey : string) (enabledByDefault : bool)
    (form_apiKey : string) (form_model : option string) : Selector :=
  {| provider := provider; apiKey := apiKey; enabled := enabledByDefault;
     form_apiKey := form_apiKey; form_model := form_model; form_errors := ∅ |}.

Definition form_setError (name msg : string) (s : Selector) : Selector :=
  {| provider := provider s; apiKey := apiKey s; enabled := enabled s;
     form_apiKey := form_apiKey s; form_model := form_model s;
     form_errors := <[name := msg]> (form_errors s) |}.

Definition setEnabled (b : bool) (s : Selector) : Selector :=
  {| provider := provider s; apiKey := apiKey s; enabled := b;
     form_apiKey := form_apiKey s; form_model := form_model s;
     form_errors := form_errors s |}.

Definition form_setModel (m : string) (s : Selector) : Selector :=
  {| provider := provider s; apiKey := apiKey s; enabled := enabled s;
     form_apiKey := form_apiKey s; form_model := Some m;
     form_errors := form_errors s |}.

(** The click on the load-models button. *)
Definition onClick (s : Selector) : Selector :=
  if bool_decide (String.length (form_apiKey s) = 0%nat)
  then form_setError "apiKey" (t "error:validation:empty-api-key" []) s
  else setEnabled true s.

(** What the selector shows: the loading icon, the select with one item per
    model id, or the load-models button.  An empty list is still a list for
    [if (data)], and reading [data[0].id] for the default value of the
    select then throws. *)
Inductive Rendering :=
| Loading
| SelectItems (ids : list string)
| LoadButton
| TypeError.

Definition render (isLoading : bool) (data : option (list RemoteModel))
    : Rendering :=
  if isLoading then Loading
  else match data with
       | Some [] => TypeError
       | Some data => SelectItems (RemoteModel.id <$> data)
       | None => LoadButton
       end.

(** The default-selection effect. *)
Definition defaultSelection_effect (data : option (list RemoteModel))
    (s : Selector) : Selector :=
  match data with
  | Some (first :: _) =>
      match form_model s with
      | None => form_setModel (RemoteModel.id first) s
      | Some fieldValue =>
          if bool_decide (String.length fieldValue = 0%nat)
          then form_setModel (RemoteModel.id first) s
          else s
      end
  | _ => s
  end.

(** Newest first. *)
Definition newest_first (a b : RemoteModel) : Prop :=
  RemoteModel.created b ≤ RemoteModel.created a.

(** *** The sort *)

Lemma sort_insert_Permutation {A : Type} (compareFn : A → A → Z) x l :
  sort_insert compareFn x l ≡ₚ x :: l.
Proof.
  induction l as [|y l IH]; simpl; [done|].
  case_bool_decide; [done|]. rewrite IH. apply Permutation_swap.
Qed.

Lemma Array_sort_Permutation {A : Type} (compareFn : A → A → Z) l :
  Array_sort compareFn l ≡ₚ l.
Proof.
  induction l as [|x l IH]; simpl; [done|].
  rewrite sort_insert_Permutation. by f_equiv.
Qed.

Section sorted.
Context {A : Type} (compareFn : A → A → Z).

(** [a] may stand before [b]. *)
Let before (a b : A) : Prop := compareFn a b ≤ 0.

(** The comparison is total: of two elements one may stand before the
    other. *)
Hypothesis compareFn_total : ∀ a b, before a b ∨ before b a.

Lemma sort_insert_HdRel a x l :
  before a x → HdRel before a l → HdRel before a (sort_insert compareFn x l).
Proof.
  intros Hax Hal. destruct l as [|y l]; simpl; [by constructor|].
  case_bool_decide; constructor; [done|]. by inversion Hal.
Qed.

Lemma sort_insert_Sorted x l :
  Sorted before l → Sorted before (sort_insert compareFn x l).
Proof.
  induction 1 as [|y l Hl IH Hy]; simpl; [by repeat constructor|].
  case_bool_decide as Hxy.
  - constructor; [by constructor|]. by constructor.
  - constructor; [done|]. apply sort_insert_HdRel; [|done].
    destruct (compareFn_total x y); [done|done].
Qed.

Lemma Array_sort_Sorted l : Sorted before (Array_sort compareFn l).
Proof.
  induction l as [|x l IH]; simpl; [constructor|]. by apply sort_insert_Sorted.
Qed.

End sorted.

Lemma Sorted_weaken {A : Type} (R R' : A → A → Prop) l :
  (∀ a b, R a b → R' a b) → Sorted R l → Sorted R' l.
Proof.
  intros HR. induction 1 as [|x l Hl IH Hx]; constructor; [done|].
  destruct Hx; constructor. by apply HR.
Qed.

Lemma select_Sorted raw : Sorted newest_first (select raw).
Proof.
  unfold select.
  eapply Sorted_weaken;
    [|apply (Array_sort_Sorted
               (λ a b, RemoteModel.created b - RemoteModel.created a))].
  - unfold newest_first. intros a b Hab. simpl in Hab. lia.
  - intros a b. lia.
Qed.

Lemma select_nonempty raw : raw ≠ [] → ∃ first rest, select raw = first :: rest.
Proof.
  intros Hraw. destruct (select raw) as [|first rest] eqn:Hs; [|eauto].
  pose proof (Array_sort_Permutation
    (λ a b, RemoteModel.created b - RemoteModel.created a) raw) as Hp.
  fold (select raw) in Hp. rewrite Hs in Hp.
  apply Permutation_nil_l in Hp. done.
Qed.

(** *** Claims about the selector *)

(** C4. For a non-empty list returned by [listRemoteModels], the list
    displayed is that list sorted by [created], newest first, and when the
    form's model field is unset or empty the effect sets it to the id of the
    first entry of the sorted list. *)
Theorem remote_models_newest_first (raw : list RemoteModel) (s : Selector) :
  raw ≠ [] →
  let data := select raw in
  data ≡ₚ raw
  ∧ Sorted newest_first data
  ∧ render false (Some data) = SelectItems (RemoteModel.id <$> data)
  ∧ ∃ first, head data = Some first
      ∧ (form_model s = None ∨ form_model s = Some "" →
         form_model (defaultSelection_effect (Some data) s)
           = Some (RemoteModel.id first)).
Proof.
  intros Hraw data.
  destruct (select_nonempty raw Hraw) as (first & rest & Hs).
  split_and!.
  - apply Array_sort_Permutation.
  - apply select_Sorted.
  - subst data. by rewrite Hs.
  - subst data. rewrite Hs. exists first. split; [done|].
    intros [Hm|Hm]; unfold defaultSelection_effect; by rewrite Hm.
Qed.

(** C10, as amended.  A click on the load-models button while the form's
    apiKey is the empty string sets a field error on [apiKey] and leaves the
    enabled flag of the fetch as it was; a click leaves the fetch enabled
    only if it was enabled before the click or the apiKey is not empty. *)
Theorem load_click_checks_api_key (s : Selector) :
  (form_apiKey s = "" →
     form_errors (onClick s) !! "apiKey"
       = Some (t "error:validation:empty-api-key" [])
     ∧ enabled (onClick s) = enabled s)
  ∧ (enabled (onClick s) = true → enabled s = true ∨ form_apiKey s ≠ "").
Proof.
  unfold onClick. split.
  - intros ->. simpl. split; [apply lookup_insert_eq|done].
  - case_bool_decide as Hlen; simpl; [by left|].
    intros _. right. intros Hk. by rewrite Hk in Hlen.
Qed.

End remote_models_selector.
End RemoteModelsSelector.

(** * The new-model dialog *)
Module ModelFormDialog.

(** The form [renderForm] picks and the model object it is opened with,
    field name to value. *)
Inductive ModelForm :=
| OpenAI_New (model : gmap string string)
| Azure_New (model : gmap string string).

(** [renderForm]: a [switch] over the dialog's [provider] state
    ([undefined] until the dialog is opened with one), whose [default]
    branch is the Azure form. *)
Definition renderForm (provider : option string) : ModelForm :=
  if decide (provider = Some PROVIDER_OPENAI)
  then OpenAI_New (<["provider" := PROVIDER_OPENAI]>
                   (<["apiKey" := ""]> (<["model" := ""]> ∅)))
  else Azure_New (<["provider" := PROVIDER_AZURE]>
                  (<["apiKey" := ""]>
                   (<["endpoint" := ""]>
                    (<["apiVersion" := ""]> (<["deploymentId" := ""]> ∅))))).

Definition initial_model (f : ModelForm) : gmap string string :=
  match f with
  | OpenAI_New model => model
  | Azure_New model => model
  end.


(** The fields each form is opened with, all of them empty but the tag. *)
Lemma renderForm_fields :
  dom (initial_model (renderForm (Some PROVIDER_OPENAI)))
    = ({[ "provider"; "apiKey"; "model" ]} : gset string)
  ∧ dom (initial_model (renderForm (Some PROVIDER_AZURE)))
    = ({[ "provider"; "apiKey"; "endpoint"; "apiVersion"; "deploymentId" ]}
       : gset string).
Proof. split; vm_compute; reflexivity. Qed.

End ModelFormDialog.

(** * The mutation coordinator: the four mutations side by side *)
Module MutationCoordinator.
Section coordinator.
Context `{!Externals}.

(** A mutation with what its caller fixed: the messages and the callback of
    [useUpsertSetting], and the variables the mutation is called with. *)
Inductive Mutation :=
| UpsertSetting (successMsg failureMsg : string) (onSuccess : World → World)
    (variables : Setting)
| CreatePrompt (variables : NewPrompt)
| UpdatePrompt (variables : Prompt)
| DeletePrompt (variables : Z).

(** What the backend answers with. *)
Definition Data (m : Mutation) : Type :=
  match m with
  | UpsertSetting _ _ _ _ => Setting
  | _ => Prompt
  end.

(** Spec 4.2, [perform(operation, payload)]: the handlers of the mutation
    run on the outcome of the backend call. *)
Definition perform (m : Mutation) : Outcome (Data m) → World → World :=
  match m with
  | UpsertSetting successMsg failureMsg onSuccess variables =>
      Settings.useUpsertSetting successMsg failureMsg onSuccess variables
  | CreatePrompt variables => PromptGrid.creator variables
  | UpdatePrompt variables => PromptGrid.updater variables
  | DeletePrompt variables => PromptGrid.deleter variables
  end.

(** The words that name the operation in its failure message. *)
Definition operation_name (m : Mutation) : string :=
  match m with
  | UpsertSetting _ _ _ _ => "Upserting settings"
  | CreatePrompt _ => "create prompt"
  | UpdatePrompt _ => "update prompt"
  | DeletePrompt _ => "delete prompt"
  end.

(** The submitted payload as the failure message writes it: key and value
    of a setting, the JSON text of the variables of a prompt mutation. *)
Definition payload_texts (m : Mutation) : list string :=
  match m with
  | UpsertSetting _ _ _ variables =>
      [Setting.key variables; Setting.value variables]
  | CreatePrompt variables => [JSON_NewPrompt variables]
  | UpdatePrompt variables => [JSON_Prompt variables]
  | DeletePrompt variables => [JSON_number variables]
  end.

(** The message contains the text. *)
Definition carries (msg part : string) : Prop :=
  ∃ pre post, msg = pre +:+ part +:+ post.

Definition is_prompt_mutation (m : Mutation) : Prop :=
  match m with
  | UpsertSetting _ _ _ _ => False
  | _ => True
  end.

Definition is_toast (s : Signal) : Prop :=
  match s with
  | ToastSuccess _ | ToastError _ => True
  | _ => False
  end.

Lemma append_assoc (a b c : string) : (a +:+ b) +:+ c = a +:+ b +:+ c.
Proof.
  induction a as [|x a IH]; [done|].
  change (String x ((a +:+ b) +:+ c) = String x (a +:+ b +:+ c)).
  by rewrite IH.
Qed.

Lemma append_nil_r (a : string) : a +:+ "" = a.
Proof.
  induction a as [|x a IH]; [done|].
  change (String x (a +:+ "") = String x a). by rewrite IH.
Qed.

Lemma carries_middle pre part post : carries (pre +:+ part +:+ post) part.
Proof. by exists pre, post. Qed.

Lemma carries_end pre part : carries (pre +:+ part) part.
Proof. exists pre, "". by rewrite append_nil_r. Qed.

Lemma carries_later pre msg part : carries msg part → carries (pre +:+ msg) part.
Proof.
  intros (a & b & ->). exists (pre +:+ a), b. by rewrite append_assoc.
Qed.

(** C1.  When the Persistence Gateway call of a mutation (upsert setting,
    create, update or delete prompt) fails, the entity cache (the query
    cache and the settings store) is what it was before the call, and a
    failure signal is emitted (the log entry) whose message holds the name
    of the operation, the submitted payload and the message of the
    underlying error. *)
Theorem failure_keeps_cache_and_reports (m : Mutation) (error : CommandError)
    (w : World) :
  let w' := perform m (Rejected error) w in
  queryCache w' = queryCache w
  ∧ settings w' = settings w
  ∧ ∃ new msg, signals w' = signals w ++ new
      ∧ LogError msg ∈ new
      ∧ carries msg (operation_name m)
      ∧ Forall (carries msg) (payload_texts m)
      ∧ carries msg (message error).
Proof.
  destruct m as [successMsg failureMsg onSuccess v|v|v|v]; cbn.
  - split_and!; [done..|]. eexists _, _. rewrite <- !(assoc_L (++)). simpl.
    split_and!; [done|by left| | |].
    + by exists "", (" failed: key = " +:+ Setting.key v +:+ ", value = "
                     +:+ Setting.value v +:+ ", " +:+ message error).
    + repeat constructor.
      * apply carries_middle.
      * do 2 apply carries_later. apply carries_middle.
    + do 4 apply carries_later. apply carries_end.
  - split_and!; [done..|]. eexists _, _. rewrite <- !(assoc_L (++)). simpl.
    split_and!; [done|by left| | |].
    + by exists "Failed to ", (": data = " +:+ JSON_NewPrompt v
                               +:+ ", error = " +:+ message error).
    + repeat constructor. apply carries_middle.
    + do 2 apply carries_later. apply carries_end.
  - split_and!; [done..|]. eexists _, _. rewrite <- !(assoc_L (++)). simpl.
    split_and!; [done|by right; left| | |].
    + by exists "Failed to ", (": data = " +:+ JSON_Prompt v
                               +:+ ", error = " +:+ message error).
    + repeat constructor. apply carries_middle.
    + do 2 apply carries_later. apply carries_end.
  - split_and!; [done..|]. eexists _, _. rewrite <- !(assoc_L (++)). simpl.
    split_and!; [done|by left| | |].
    + by exists "Failed to ", (": data = " +:+ JSON_number v
                               +:+ ", error = " +:+ message error).
    + repeat constructor. apply carries_middle.
    + do 2 apply carries_later. apply carries_end.
Qed.

(** The handlers never look at whether their view is still mounted: on a
    world whose view is torn down they do what they do on a live one, and
    only the closing of the dialog finds an empty ref. *)
Lemma setQueryData_unmount key f w :
  setQueryData key f (unmount w) = unmount (setQueryData key f w).
Proof.
  unfold setQueryData. simpl. by destruct (f (queryCache w !! key)).
Qed.

Lemma prompt_handlers_unmount (m : Mutation) (o : Outcome (Data m)) (w : World) :
  is_prompt_mutation m → perform m o (unmount w) = unmount (perform m o w).
Proof.
  destruct m as [? ? ? v|v|v|v]; [done|..]; intros _; destruct o as [p|e]; cbn;
    unfold PromptGrid.creator_onSuccess, PromptGrid.updater_onSuccess,
      PromptGrid.deleter_onSuccess; cbv zeta;
    rewrite ?setQueryData_unmount; done.
Qed.

(** C9, as amended.  A response that reaches the handlers after the view
    has been torn down is handled like any other.  For the prompt mutations
    the entity cache and the signals end up as they do for a mounted view
    (on success the cache is patched and a toast shown; on failure an error
    is logged and a toast shown); for every mutation the response ends with
    a toast.  Only the closing of the dialog is skipped. *)
Theorem stale_response_is_handled (m : Mutation) (o : Outcome (Data m))
    (w : World) :
  let live := perform m o w in
  let stale := perform m o (unmount w) in
  (is_prompt_mutation m →
     queryCache stale = queryCache live
     ∧ settings stale = settings live
     ∧ signals stale = signals live)
  ∧ ∃ earlier s, signals stale = earlier ++ [s] ∧ is_toast s.
Proof.
  cbv zeta. split.
  - intros Hm. by rewrite prompt_handlers_unmount.
  - destruct m as [? ? ? v|v|v|v], o as [p|e]; cbn; eexists _, _; done.
Qed.

End coordinator.
End MutationCoordinator.

(** * The ECMAScript conversions between strings and numbers

    [Number(value)] on the value of an input element and
    [Number.prototype.toString()], for the scenarios below.  Strings are
    sequences of UTF-8 bytes. *)
Module ECMAScript.

(** The code of a character (strings are sequences of UTF-8 bytes). *)
Definition code (a : Ascii.ascii) : Z := Z.of_N (Ascii.N_of_ascii a).

Definition decimal_digit (a : Ascii.ascii) : option Z :=
  let c := code a in
  if bool_decide (48 ≤ c ≤ 57) then Some (c - 48) else None.

Definition hex_digit (a : Ascii.ascii) : option Z :=
  let c := code a in
  if bool_decide (48 ≤ c ≤ 57) then Some (c - 48)
  else if bool_decide (97 ≤ c ≤ 102) then Some (c - 87)
  else if bool_decide (65 ≤ c ≤ 70) then Some (c - 55)
  else None.

Definition digit_below (base : Z) (a : Ascii.ascii) : option Z :=
  match decimal_digit a with
  | Some d => if bool_decide (d < base) then Some d else None
  | None => None
  end.

(** The longest run of digits at the head of a string: the value read on
    top of [acc], the number of digits read, and the rest. *)
Fixpoint read_digits (digit : Ascii.ascii → option Z) (base acc count : Z)
    (s : string) : Z * Z * string :=
  match s with
  | String a s' =>
      match digit a with
      | Some d => read_digits digit base (base * acc + d) (count + 1) s'
      | None => (acc, count, s)
      end
  | EmptyString => (acc, count, s)
  end.

(** WhiteSpace and LineTerminator of three bytes: U+1680, U+2000 to U+200A,
    U+2028, U+2029, U+202F, U+205F, U+3000 and U+FEFF. *)
Definition white_space_3 (c1 c2 c3 : Z) : bool :=
  bool_decide ((c1 = 225 ∧ c2 = 154 ∧ c3 = 128)
               ∨ (c1 = 226 ∧ c2 = 128 ∧ (128 ≤ c3 ≤ 138 ∨ c3 = 168 ∨ c3 = 169 ∨ c3 = 175))
               ∨ (c1 = 226 ∧ c2 = 129 ∧ c3 = 159)
               ∨ (c1 = 227 ∧ c2 = 128 ∧ c3 = 128)
               ∨ (c1 = 239 ∧ c2 = 187 ∧ c3 = 191)).

(** The string without the white space it starts with: TAB, LF, VT, FF, CR,
    SP, U+00A0 and the characters above. *)
Fixpoint skip_white_space (s : string) : string :=
  match s with
  | String a s1 =>
      let c := code a in
      if bool_decide (9 ≤ c ≤ 13 ∨ c = 32) then skip_white_space s1
      else
        match s1 with
        | String b s2 =>
            if bool_decide (c = 194 ∧ code b = 160) then skip_white_space s2
            else
              match s2 with
              | String d s3 =>
                  if white_space_3 c (code b) (code d) then skip_white_space s3
                  else s
              | EmptyString => s
              end
        | EmptyString => s
        end
  | EmptyString => s
  end.

Definition only_white_space (s : string) : bool :=
  bool_decide (skip_white_space s = "").

Fixpoint strip_prefix (p s : string) : option string :=
  match p, s with
  | EmptyString, _ => Some s
  | String a p', String b s' =>
      if bool_decide (a = b) then strip_prefix p' s' else None
  | String _ _, EmptyString => None
  end.

(** [floor (log2 (num / den))] for positive [num] and [den]. *)
Definition floor_log2 (num den : Z) : Z :=
  let l := Z.log2 num - Z.log2 den in
  if bool_decide (num * 2 ^ Z.max 0 (- l) < den * 2 ^ Z.max 0 l)
  then l - 1 else l.

(** [n / d] rounded to the nearest integer, ties to even. *)
Definition round_half_even (n d : Z) : Z :=
  let q := n / d in
  match 2 * (n mod d) ?= d with
  | Lt => q
  | Gt => q + 1
  | Eq => if Z.even q then q else q + 1
  end.

(** The Number value for the mathematical value [num / den] with the given
    sign: the nearest double, ties to even; infinite from [2 ^ 1024] on. *)
Definition RoundMV (negative : bool) (num den : Z) : JSNumber :=
  if bool_decide (num = 0) then Finite 0
  else
    let e := Z.max (floor_log2 num den - 52) (- 1074) in
    let m := round_half_even (num * 2 ^ Z.max 0 (- e)) (den * 2 ^ Z.max 0 e) in
    if bool_decide (2 ^ 1024 * 2 ^ Z.max 0 (- e) ≤ m * 2 ^ Z.max 0 e)
    then Infinity negative
    else
      let v := Qred (Qmake (m * 2 ^ Z.max 0 e) (Z.to_pos (2 ^ Z.max 0 (- e)))) in
      Finite (if negative then Qopp v else v).

(** NonDecimalIntegerLiteral after its prefix: digits only, at least one. *)
Definition non_decimal (base : Z) (digit : Ascii.ascii → option Z) (s : string)
    : JSNumber :=
  let '(v, n, rest) := read_digits digit base 0 0 s in
  if bool_decide (0 < n) && only_white_space rest then RoundMV false v 1
  else NaN.

(** ExponentPart after its [e]: an optional sign and at least one digit. *)
Definition exponent_part (s : string) : option (Z * string) :=
  let '(negative, s1) :=
    match s with
    | String a s' =>
        if bool_decide (code a = 45) then (true, s')
        else if bool_decide (code a = 43) then (false, s')
        else (false, s)
    | EmptyString => (false, s)
    end in
  let '(v, n, rest) := read_digits decimal_digit 10 0 0 s1 in
  if bool_decide (0 < n) then Some (if negative then - v else v, rest)
  else None.

(** StrUnsignedDecimalLiteral: [Infinity], or digits with an optional
    fraction and an optional exponent, at least one digit before the
    exponent. *)
Definition unsigned_decimal (negative : bool) (s : string) : JSNumber :=
  match strip_prefix "Infinity" s with
  | Some rest => if only_white_space rest then Infinity negative else NaN
  | None =>
      let '(ip, n_ip, r1) := read_digits decimal_digit 10 0 0 s in
      let '(mantissa, n_fp, r2) :=
        match r1 with
        | String a r =>
            if bool_decide (code a = 46) then read_digits decimal_digit 10 ip 0 r
            else (ip, 0, r1)
        | EmptyString => (ip, 0, r1)
        end in
      if bool_decide (n_ip + n_fp = 0) then NaN
      else
        let exponent :=
          match r2 with
          | String a r =>
              if bool_decide (code a = 101 ∨ code a = 69) then exponent_part r
              else Some (0, r2)
          | EmptyString => Some (0, r2)
          end in
        match exponent with
        | Some (ex, r3) =>
            if only_white_space r3
            then let x := ex - n_fp in
                 RoundMV negative (mantissa * 10 ^ Z.max 0 x) (10 ^ Z.max 0 (- x))
            else NaN
        | None => NaN
        end
  end.

(** StringToNumber: white space around the literal is dropped, the empty
    string is [0], a string that is no StringNumericLiteral is NaN. *)
Definition StringToNumber (s : string) : JSNumber :=
  match skip_white_space s with
  | EmptyString => Finite 0
  | String a r as s' =>
      let c := code a in
      if bool_decide (c = 45) then unsigned_decimal true r
      else if bool_decide (c = 43) then unsigned_decimal false r
      else
        match r with
        | String b r' =>
            let k := code b in
            if bool_decide (c = 48 ∧ (k = 120 ∨ k = 88)) then non_decimal 16 hex_digit r'
            else if bool_decide (c = 48 ∧ (k = 111 ∨ k = 79)) then non_decimal 8 (digit_below 8) r'
            else if bool_decide (c = 48 ∧ (k = 98 ∨ k = 66)) then non_decimal 2 (digit_below 2) r'
            else unsigned_decimal false s'
        | EmptyString => unsigned_decimal false s'
        end
  end.

(** [Number(value)] for the value of an input element: [undefined] is
    NaN. *)
Definition ToNumber (input : option string) : JSNumber :=
  match input with
  | Some s => StringToNumber s
  | None => NaN
  end.


(** *** Number::toString *)

(** [10 ^ t ≤ num / den] for positive [num] and [den]. *)
Definition pow10_le (t num den : Z) : bool :=
  bool_decide (den * 10 ^ Z.max 0 t ≤ num * 10 ^ Z.max 0 (- t)).

(** [floor (log10 (num / den))] for positive [num] and [den]. *)
Definition floor_log10 (num den : Z) : Z :=
  let t0 := (floor_log2 num den * 30103) `div` 100000 - 1 in
  t0 + (if pow10_le (t0 + 1) num den then 1 else 0)
     + (if pow10_le (t0 + 2) num den then 1 else 0)
     + (if pow10_le (t0 + 3) num den then 1 else 0).

(** The decimal [s * 10 ^ p] as a fraction. *)
Definition decimal (s p : Z) : Z * Z :=
  (s * 10 ^ Z.max 0 p, 10 ^ Z.max 0 (- p)).

Definition same_number (a b : JSNumber) : bool :=
  match a, b with
  | Finite p, Finite q => Qeq_bool p q
  | Infinity x, Infinity y => bool_decide (x = y)
  | _, _ => false
  end.

(** The candidates [(s, n)] with [k] digits for the number [x], whose
    value is [num / den], each with its distance from that value. *)
Definition candidates (x : JSNumber) (num den k n : Z) : list (Z * Z * Q) :=
  let p := n - k in
  let scaled_num := num * 10 ^ Z.max 0 (- p) in
  let scaled_den := den * 10 ^ Z.max 0 p in
  let low := scaled_num `div` scaled_den in
  let ok s :=
    bool_decide (10 ^ (k - 1) ≤ s < 10 ^ k)
    && same_number (let '(a, b) := decimal s p in RoundMV false a b) x in
  let distance s :=
    Qmake (Z.abs (s * scaled_den - scaled_num)) (Z.to_pos (10 ^ Z.max 0 (- p))) in
  (if ok low then [(low, n, distance low)] else [])
  ++ (if ok (low + 1) then [(low + 1, n, distance (low + 1))] else []).

(** The nearer of two candidates; the even one of two equally near. *)
Definition nearer (a b : Z * Z * Q) : Z * Z * Q :=
  let '(sa, na, da) := a in
  let '(sb, nb, db) := b in
  if negb (Qle_bool db da) then a
  else if negb (Qle_bool da db) then b
  else if Z.even sa then a else b.

Definition nearest (l : list (Z * Z * Q)) : option (Z * Z) :=
  match l with
  | [] => None
  | c :: l' => let '(s, n, _) := foldl nearer c l' in Some (s, n)
  end.

(** The least number of digits [k], from [k] on and with at most [fuel]
    more, for which a decimal [s * 10 ^ (n - k)] is [x]; with it [s] and
    [n]. *)
Fixpoint shortest (fuel : nat) (x : JSNumber) (num den n0 k : Z)
    : option (Z * Z * Z) :=
  match fuel with
  | O => None
  | S fuel' =>
      match nearest (candidates x num den k n0 ++ candidates x num den k (n0 + 1)) with
      | Some (s, n) => Some (s, n, k)
      | None => shortest fuel' x num den n0 (k + 1)
      end
  end.

Definition zeros (n : Z) : string := String.concat "" (replicate (Z.to_nat n) "0").

(** The text of the positive number with digits [s], [k] of them, and
    decimal point after [n] digits. *)
Definition format (s n k : Z) : string :=
  let digits := pretty s in
  if bool_decide (k ≤ n ≤ 21) then digits +:+ zeros (n - k)
  else if bool_decide (0 < n ≤ 21)
  then String.substring 0 (Z.to_nat n) digits +:+ "."
       +:+ String.substring (Z.to_nat n) (Z.to_nat (k - n)) digits
  else if bool_decide (- 6 < n ≤ 0) then "0." +:+ zeros (- n) +:+ digits
  else
    let e := n - 1 in
    let exponent := (if bool_decide (0 ≤ e) then "+" else "-") +:+ pretty (Z.abs e) in
    if bool_decide (k = 1) then digits +:+ "e" +:+ exponent
    else String.substring 0 1 digits +:+ "."
         +:+ String.substring 1 (Z.to_nat (k - 1)) digits +:+ "e" +:+ exponent.

(** [Number.prototype.toString()], radix 10. *)
Definition toString (x : JSNumber) : string :=
  match x with
  | NaN => "NaN"
  | Infinity negative => if negative then "-Infinity" else "Infinity"
  | Finite q =>
      let num := Z.abs (Qnum q) in
      let den := Z.pos (Qden q) in
      match RoundMV false num den with
      | Finite r =>
          if bool_decide (Qnum r = 0) then "0"
          else
            let n0 := floor_log10 (Qnum r) (Z.pos (Qden r)) + 1 in
            match shortest 17 (Finite r) (Qnum r) (Z.pos (Qden r)) n0 1 with
            | Some (s, n, k) =>
                (if bool_decide (Qnum q < 0) then "-" else "") +:+ format s n k
            | None => "NaN"
            end
      | _ => if bool_decide (Qnum q < 0) then "-Infinity" else "Infinity"
      end
  end.

End ECMAScript.

(** * Scenarios on concrete inputs *)
Module Scenarios.

(** A catalogue that answers with the key itself, the query key and the
    setting keys as plain strings, a JSON text that keeps the fields in
    order, and the conversions of ECMAScript. *)
Definition scenario : Externals :=
  {| t := λ key _, key;
     LIST_PROMPTS_KEY := ["list-prompts"];
     SETTING_MODELS_CONTEXT_LENGTH := "models:context_length";
     SETTING_NETWORK_PROXY := "network:proxy";
     JSON_NewPrompt := λ p,
       "{alias:" +:+ NewPrompt.alias p +:+ ",content:" +:+ NewPrompt.content p +:+ "}";
     JSON_Prompt := λ p,
       "{id:" +:+ pretty (Prompt.id p) +:+ ",alias:" +:+ Prompt.alias p
       +:+ ",content:" +:+ Prompt.content p +:+ "}";
     JSON_number := pretty;
     JSON_ProxySetting := λ p,
       "{on:" +:+ (if ProxySetting.on p then "true" else "false")
       +:+ ",server:" +:+ ProxySetting.server p +:+ "}";
     Number_ := ECMAScript.ToNumber;
     Number_toString := ECMAScript.toString |}.

#[local] Existing Instance scenario.

Definition greeting : Prompt :=
  {| Prompt.id := 1; Prompt.alias := "greeting"; Prompt.content := "Say hello";
     Prompt.createdAt := Some "2024-03-01" |}.

Definition summary : Prompt :=
  {| Prompt.id := 2; Prompt.alias := "summary"; Prompt.content := "Summarise";
     Prompt.createdAt := None |}.

Definition review : Prompt :=
  {| Prompt.id := 3; Prompt.alias := "review"; Prompt.content := "Review this";
     Prompt.createdAt := None |}.

Definition new_review : NewPrompt :=
  {| NewPrompt.alias := "review"; NewPrompt.content := "Review this" |}.

(** A grid that lists two prompts, its dialogs mounted and closed. *)
Definition two_prompts : World :=
  {| queryCache := {[ LIST_PROMPTS_KEY := [greeting; summary] ]};
     settings := ∅; signals := [];
     newPromptDialogRef := Some false; editPromptDialogRef := Some false |}.

(** A world with nothing cached and no view mounted. *)
Definition torn_down : World :=
  {| queryCache := ∅; settings := ∅; signals := [];
     newPromptDialogRef := None; editPromptDialogRef := None |}.

(** The list of the spec's scenario. *)
Definition m1 : RemoteModel := {| RemoteModel.id := "m1"; RemoteModel.created := 100 |}.
Definition m2 : RemoteModel := {| RemoteModel.id := "m2"; RemoteModel.created := 200 |}.

Definition proxy_on : ProxySetting :=
  {| ProxySetting.on := true; ProxySetting.server := "http://127.0.0.1:1234";
     ProxySetting.http := true; ProxySetting.https := false;
     ProxySetting.username := ""; ProxySetting.password := "" |}.

Definition proxy_off : ProxySetting := Settings.set_on false proxy_on.

(** The saved proxy is on and so is the switch. *)
Definition card_saved_on : Settings.ProxyCard :=
  {| Settings.proxySetting := proxy_on; Settings.formValues := proxy_on;
     Settings.effectDeps := Some (true, true) |}.

(** The saved proxy is off; the switch was turned on and nothing saved. *)
Definition card_saved_off : Settings.ProxyCard :=
  {| Settings.proxySetting := proxy_off; Settings.formValues := proxy_on;
     Settings.effectDeps := Some (false, true) |}.

(** A selector created with [enabledByDefault] and an empty apiKey. *)
Definition enabled_selector : RemoteModelsSelector.Selector :=
  RemoteModelsSelector.mount "OpenAI" "" true "" None.

(** A selector of a form whose model field is unset. *)
Definition fresh_selector : RemoteModelsSelector.Selector :=
  RemoteModelsSelector.mount "OpenAI" "A" false "A" None.

(** The spec's examples for the context length: ["5"] is saved as ["5"],
    ["100000"] is refused. *)
Example context_length_5 :
  (Settings.SettingContextLength_onSaveClick
     {| Settings.inputValue := Some "5"; Settings.error := "" |}).2
  = Some {| Setting.key := "models:context_length"; Setting.value := "5" |}.
Proof. vm_compute. reflexivity. Qed.

Example context_length_100000 :
  Settings.SettingContextLength_onSaveClick
    {| Settings.inputValue := Some "100000"; Settings.error := "" |}
  = ({| Settings.inputValue := Some "100000";
        Settings.error := "error:validation:invalid-int-minmax" |}, None).
Proof. vm_compute. reflexivity. Qed.

(** What [Number(...)] coerces is saved as the number it coerces to:
    ["1e3"], [" 7 "], ["0x10"] and the empty string; ["12.5"], ["7 7"] and
    an empty ref are refused. *)
Example coerced_inputs :
  (λ v, Setting.value <$>
          (Settings.SettingContextLength_onSaveClick
             {| Settings.inputValue := v; Settings.error := "" |}).2)
  <$> [Some "1e3"; Some " 7 "; Some "0x10"; Some ""; Some "12.5"; Some "7 7"; None]
  = [Some "1000"; Some "7"; Some "16"; Some "0"; None; None; None].
Proof. vm_compute. reflexivity. Qed.

(** Zero tokens are refused, zero context length is not. *)
Example max_tokens_0 :
  (Settings.SettingMaxTokens_onSaveClick
     {| Settings.inputValue := Some "0"; Settings.error := "" |}).2 = None
  ∧ (Settings.SettingContextLength_onSaveClick
       {| Settings.inputValue := Some "0"; Settings.error := "" |}).2
    = Some {| Setting.key := "models:context_length"; Setting.value := "0" |}.
Proof. split; vm_compute; reflexivity. Qed.

(** The spec's scenario for the remote models. *)
Example remote_models_scenario :
  RemoteModelsSelector.render false (Some (RemoteModelsSelector.select [m1; m2]))
    = RemoteModelsSelector.SelectItems ["m2"; "m1"]
  ∧ RemoteModelsSelector.form_model
      (RemoteModelsSelector.defaultSelection_effect
         (Some (RemoteModelsSelector.select [m1; m2])) fresh_selector)
    = Some "m2".
Proof. split; reflexivity. Qed.

(** Models created at the same time keep the order they came in. *)
Example remote_models_ties :
  RemoteModel.id <$> RemoteModelsSelector.select
    [ {| RemoteModel.id := "a"; RemoteModel.created := 5 |};
      {| RemoteModel.id := "b"; RemoteModel.created := 7 |};
      {| RemoteModel.id := "c"; RemoteModel.created := 5 |};
      {| RemoteModel.id := "d"; RemoteModel.created := 7 |} ]
  = ["b"; "d"; "a"; "c"].
Proof. reflexivity. Qed.

(** Witness of C7 on the grid with two prompts: a third prompt with a fresh
    id is created. *)
Lemma patches_keep_ids_unique_witness :
  PromptGrid.unique_ids (PromptGrid.cached_prompts two_prompts)
  ∧ PromptGrid.unique_ids
      (PromptGrid.cached_prompts
         (PromptGrid.creator new_review (Resolved review) two_prompts)).
Proof.
  assert (PromptGrid.unique_ids (PromptGrid.cached_prompts two_prompts)) as Hu.
  { change (NoDup [1; 2]). apply NoDup_cons. split; [|apply NoDup_singleton].
    apply not_elem_of_cons. split; [lia|apply not_elem_of_nil]. }
  split; [exact Hu|].
  apply (proj1 (PromptGrid.patches_keep_ids_unique two_prompts Hu)).
  change (3 ∉ [1; 2]).
  repeat (apply not_elem_of_cons; split; [lia|]). apply not_elem_of_nil.
Defined.

(** Witness of C4 on the spec's scenario. *)
Lemma remote_models_newest_first_witness :
  let data := RemoteModelsSelector.select [m1; m2] in
  data ≡ₚ [m1; m2]
  ∧ Sorted RemoteModelsSelector.newest_first data
  ∧ RemoteModelsSelector.render false (Some data)
    = RemoteModelsSelector.SelectItems (RemoteModel.id <$> data)
  ∧ ∃ first, head data = Some first
      ∧ (RemoteModelsSelector.form_model fresh_selector = None
         ∨ RemoteModelsSelector.form_model fresh_selector = Some "" →
         RemoteModelsSelector.form_model
           (RemoteModelsSelector.defaultSelection_effect (Some data) fresh_selector)
         = Some (RemoteModel.id first)).
Proof.
  apply (RemoteModelsSelector.remote_models_newest_first [m1; m2] fresh_selector).
  discriminate.
Defined.

(** Witness of C6: the saved proxy is on and the switch is turned off. *)
Lemma proxy_autosave_on_turn_off_witness :
  (Settings.onCheckedChange false card_saved_on).2 =
    [ {| Setting.key := SETTING_NETWORK_PROXY;
         Setting.value := JSON_ProxySetting
                            (Settings.set_on false (Settings.formValues card_saved_on)) |} ]
  ∧ ProxySetting.on (Settings.set_on false (Settings.formValues card_saved_on)) = false
  ∧ Settings.formValues (Settings.onCheckedChange false card_saved_on).1
    = Settings.set_on false (Settings.formValues card_saved_on)
  ∧ ∀ c', (Settings.onCheckedChange true c').2 = [].
Proof.
  apply (Settings.proxy_autosave_on_turn_off card_saved_on); reflexivity.
Defined.

(** Counterexample to C6 as stated: the saved proxy is off, the switch was
    turned on without saving and is turned off again; the flag goes from
    true to false and no upsert is made. *)
Lemma turn_off_unsaved_makes_no_call :
  Settings.rendered card_saved_off
  ∧ Settings.useProxy card_saved_off = true
  ∧ Settings.useProxy (Settings.onCheckedChange false card_saved_off).1 = false
  ∧ (Settings.onCheckedChange false card_saved_off).2 = [].
Proof. split_and!; reflexivity. Qed.

(** Counterexample to C9 as stated: the create-prompt response arrives when
    the view is torn down; the cache is patched and a toast is shown. *)
Lemma stale_create_response_patches_and_toasts :
  let w' := MutationCoordinator.perform
              (MutationCoordinator.CreatePrompt new_review) (Resolved review)
              torn_down in
  newPromptDialogRef torn_down = None
  ∧ editPromptDialogRef torn_down = None
  ∧ PromptGrid.cached_prompts torn_down = None
  ∧ PromptGrid.cached_prompts w' = Some [review]
  ∧ signals torn_down = []
  ∧ signals w' = [ToastSuccess "page-prompts:message:create-prompt-success"].
Proof. split_and!; reflexivity. Qed.

(** Counterexample to C10 as stated: the selector was created with
    [enabledByDefault]; the click with an empty apiKey sets the error and
    the fetch is enabled all the same. *)
Lemma click_with_empty_key_on_enabled_selector :
  RemoteModelsSelector.form_apiKey enabled_selector = ""
  ∧ RemoteModelsSelector.form_errors
      (RemoteModelsSelector.onClick enabled_selector) !! "apiKey"
    = Some "error:validation:empty-api-key"
  ∧ RemoteModelsSelector.enabled
      (RemoteModelsSelector.onClick enabled_selector) = true.
Proof. split_and!; reflexivity. Qed.

End Scenarios.

(** * More about the prompt grid: what the patches do to the collection *)
Module PromptGridFacts.
Import PromptGrid.
Section facts.
Context `{!Externals}.

(** The ids of a list of prompts. *)
Definition ids (l : list Prompt) : list Z := Prompt.id <$> l.

(** *** [findIndex] finds the first match *)

Lemma findIndex_first {A : Type} (f : A → bool) (l : list A) (i : nat) :
  findIndex f l = Some i ↔
  ∃ x, l !! i = Some x ∧ f x = true
       ∧ ∀ j y, (j < i)%nat → l !! j = Some y → f y = false.
Proof.
  revert i. induction l as [|a l IH]; intros i; simpl.
  { split; [done|]. intros (x & Hx & _). done. }
  destruct (f a) eqn:Ha.
  - split.
    + intros [= <-]. exists a. split_and!; [done..|]. intros j y Hj. lia.
    + intros (x & Hx & Hfx & Hbefore). destruct i as [|i]; [done|].
      specialize (Hbefore 0%nat a). simpl in Hbefore.
      rewrite Hbefore in Ha; [done|lia|done].
  - split.
    + destruct (findIndex f l) as [k|] eqn:Hk; simpl; [|done].
      intros [= <-]. destruct (proj1 (IH k) eq_refl) as (x & Hx & Hfx & Hbefore).
      exists x. split_and!; [done..|].
      intros [|j] y Hj Hy; simpl in Hy; [by simplify_eq|].
      apply (Hbefore j); [lia|done].
    + intros (x & Hx & Hfx & Hbefore). destruct i as [|i].
      { simpl in Hx. simplify_eq. congruence. }
      simpl in Hx.
      assert (findIndex f l = Some i) as ->; [|done].
      apply IH. exists x. split_and!; [done..|].
      intros j y Hj Hy. apply (Hbefore (S j)); [lia|done].
Qed.

Lemma findIndex_None {A : Type} (f : A → bool) (l : list A) :
  findIndex f l = None ↔ ∀ x, x ∈ l → f x = false.
Proof.
  induction l as [|a l IH]; simpl.
  { split; [|done]. intros _ x Hx. by apply elem_of_nil in Hx. }
  destruct (f a) eqn:Ha.
  - split; [done|]. intros Hall. rewrite Hall in Ha; [done|by left].
  - destruct (findIndex f l) as [k|] eqn:Hk; simpl.
    + split; [done|]. intros Hall.
      assert (Some k = None) as Hc; [|done].
      apply IH. intros x Hx. apply Hall. by right.
    + split; [|done]. intros _ x [->|Hx]%elem_of_cons; [done|].
      by apply (proj1 IH eq_refl).
Qed.

Lemma update_patch_missing p l :
  Prompt.id p ∉ ids l → update_patch p (Some l) = Some l.
Proof.
  intros Hp. unfold update_patch.
  assert (findIndex (λ q, bool_decide (Prompt.id q = Prompt.id p)) l = None)
    as ->; [|done].
  apply findIndex_None. intros x Hx. apply bool_decide_eq_false.
  intros Heq. apply Hp. rewrite <- Heq. unfold ids. by apply list_elem_of_fmap_2.
Qed.

Lemma delete_patch_missing p l :
  Prompt.id p ∉ ids l → delete_patch p (Some l) = Some l.
Proof.
  intros Hp. unfold delete_patch. f_equal.
  induction l as [|a l IH]; [done|].
  unfold ids in Hp. rewrite fmap_cons in Hp.
  apply not_elem_of_cons in Hp as [Ha Hl].
  rewrite filter_cons_True by done. f_equal. by apply IH.
Qed.

Lemma setQueryData_same_value key f w :
  f (queryCache w !! key) = queryCache w !! key →
  queryCache (setQueryData key f w) = queryCache w.
Proof.
  unfold setQueryData. intros ->.
  destruct (queryCache w !! key) as [l|] eqn:Hl; simpl; [|done].
  by apply insert_id.
Qed.

Lemma setQueryData_other_key key f w k :
  k ≠ key → queryCache (setQueryData key f w) !! k = queryCache w !! k.
Proof.
  intros Hk. unfold setQueryData.
  destruct (f (queryCache w !! key)); simpl; [|done].
  by apply lookup_insert_ne.
Qed.

Lemma setQueryData_settings key f w :
  settings (setQueryData key f w) = settings w.
Proof. unfold setQueryData. by destruct (f (queryCache w !! key)). Qed.

(** *** Properties *)

(** X1. A successful update replaces the first cached prompt that has the id
    of the returned prompt, at its place: the collection keeps its length
    and every other entry. *)
Theorem update_replaces_first_match (variables prompt : Prompt) (l : list Prompt)
    (w : World) :
  cached_prompts w = Some l →
  Prompt.id prompt ∈ ids l →
  ∃ i old,
    l !! i = Some old
    ∧ Prompt.id old = Prompt.id prompt
    ∧ (∀ j q, (j < i)%nat → l !! j = Some q → Prompt.id q ≠ Prompt.id prompt)
    ∧ ∃ l', cached_prompts (updater variables (Resolved prompt) w) = Some l'
        ∧ length l' = length l
        ∧ l' !! i = Some prompt
        ∧ ∀ j, j ≠ i → l' !! j = l !! j.
Proof.
  intros Hl Hin. simpl. rewrite cached_prompts_updater_onSuccess, Hl.
  unfold update_patch.
  destruct (findIndex (λ q, bool_decide (Prompt.id q = Prompt.id prompt)) l)
    as [i|] eqn:Hi.
  - apply findIndex_first in Hi as (old & Hold & Hid & Hbefore).
    apply bool_decide_eq_true in Hid.
    exists i, old. split_and!; [done..| |].
    + intros j q Hj Hq Heq.
      specialize (Hbefore j q Hj Hq). by apply bool_decide_eq_false in Hbefore.
    + exists (<[i := prompt]> l). split_and!; [done| | |].
      * apply length_insert.
      * apply list_lookup_insert_eq. by eapply lookup_lt_Some.
      * intros j Hj. by apply list_lookup_insert_ne.
  - exfalso. apply list_elem_of_fmap in Hin as (q & Hq & Hql).
    pose proof (proj1 (findIndex_None _ _) Hi q Hql) as Hf.
    apply bool_decide_eq_false in Hf. done.
Qed.

(** X2. A successful update or delete of a prompt whose id is not cached
    leaves the whole query cache as it was (nothing is inserted); the
    success toast is shown all the same. *)
Theorem unknown_id_leaves_cache (variables prompt : Prompt) (d : Z) (w : World) :
  fresh_id (Prompt.id prompt) (cached_prompts w) →
  queryCache (updater variables (Resolved prompt) w) = queryCache w
  ∧ queryCache (deleter d (Resolved prompt) w) = queryCache w
  ∧ signals (updater variables (Resolved prompt) w)
    = signals w ++ [ToastSuccess (t "page-prompts:message:update-prompt-success" [])]
  ∧ signals (deleter d (Resolved prompt) w)
    = signals w ++ [ToastSuccess (t "page-prompts:message:delete-prompt-success" [])].
Proof.
  intros Hfresh. unfold cached_prompts in Hfresh. simpl.
  unfold updater_onSuccess, deleter_onSuccess. cbv zeta.
  assert (∀ f w', signals (setQueryData LIST_PROMPTS_KEY f w') = signals w')
    as Hsig.
  { intros f w'. unfold setQueryData. by destruct (f _). }
  split_and!.
  - change (queryCache (setQueryData LIST_PROMPTS_KEY (update_patch prompt) w)
            = queryCache w).
    apply setQueryData_same_value.
    destruct (queryCache w !! LIST_PROMPTS_KEY) as [l|]; [|done].
    by apply update_patch_missing.
  - change (queryCache (setQueryData LIST_PROMPTS_KEY (delete_patch prompt) w)
            = queryCache w).
    apply setQueryData_same_value.
    destruct (queryCache w !! LIST_PROMPTS_KEY) as [l|]; [|done].
    by apply delete_patch_missing.
  - simpl. by rewrite Hsig.
  - simpl. by rewrite Hsig.
Qed.

(** X3. A successful delete removes every cached prompt with the id of the
    returned prompt and keeps all the others, in their order. *)
Theorem delete_removes_that_id (d : Z) (prompt : Prompt) (l : list Prompt)
    (w : World) :
  cached_prompts w = Some l →
  ∃ l', cached_prompts (deleter d (Resolved prompt) w) = Some l'
    ∧ (l' `sublist_of` l)
    ∧ (Prompt.id prompt ∉ ids l')
    ∧ ∀ q, q ∈ l' ↔ q ∈ l ∧ Prompt.id q ≠ Prompt.id prompt.
Proof.
  intros Hl. simpl. rewrite cached_prompts_deleter_onSuccess, Hl. simpl.
  eexists. split_and!; [done|apply sublist_filter| |].
  - intros (q & Hq & Hin)%list_elem_of_fmap.
    apply list_elem_of_filter in Hin as [Hne _]. done.
  - intros q. rewrite list_elem_of_filter. tauto.
Qed.

(** X4. Creating a prompt with a fresh id and then deleting it gives the
    cached collection back; from an absent collection the result is the
    empty collection. *)
Theorem create_then_delete (v : NewPrompt) (d : Z) (prompt : Prompt) (w : World) :
  fresh_id (Prompt.id prompt) (cached_prompts w) →
  cached_prompts (deleter d (Resolved prompt) (creator v (Resolved prompt) w))
  = Some (default [] (cached_prompts w)).
Proof.
  intros Hfresh. simpl.
  rewrite cached_prompts_deleter_onSuccess, cached_prompts_creator_onSuccess.
  destruct (cached_prompts w) as [l|]; simpl in *.
  - f_equal. rewrite filter_app, filter_cons_False, filter_nil, app_nil_r
      by (intros Hne; by apply Hne).
    pose proof (delete_patch_missing prompt l Hfresh) as Hd.
    by injection Hd.
  - f_equal. by rewrite filter_cons_False by (intros Hne; by apply Hne).
Qed.

(** X5. Handling the same update response twice gives the cache that
    handling it once gives. *)
Theorem update_twice (variables prompt : Prompt) (w : World) :
  let once := updater variables (Resolved prompt) w in
  cached_prompts (updater variables (Resolved prompt) once) = cached_prompts once.
Proof.
  simpl. rewrite !cached_prompts_updater_onSuccess.
  destruct (cached_prompts w) as [l|]; [|done]. simpl.
  destruct (findIndex (λ q, bool_decide (Prompt.id q = Prompt.id prompt)) l)
    as [i|] eqn:Hi; simpl; [|by rewrite Hi].
  assert (findIndex (λ q, bool_decide (Prompt.id q = Prompt.id prompt))
            (<[i := prompt]> l) = Some i) as ->.
  { apply findIndex_first in Hi as (old & Hold & Hid & Hbefore).
    apply findIndex_first. exists prompt. split_and!.
    - apply list_lookup_insert_eq. by eapply lookup_lt_Some.
    - by apply bool_decide_eq_true.
    - intros j y Hj Hy. rewrite list_lookup_insert_ne in Hy by lia.
      by apply (Hbefore j). }
  by rewrite list_insert_insert_eq.
Qed.

(** X6. The handlers of the prompt mutations, on success and on failure,
    leave the settings store and every query other than the prompt list as
    they were. *)
Theorem prompt_mutations_touch_only_prompts (m : MutationCoordinator.Mutation)
    (o : Outcome (MutationCoordinator.Data m)) (w : World) :
  MutationCoordinator.is_prompt_mutation m →
  settings (MutationCoordinator.perform m o w) = settings w
  ∧ ∀ k, k ≠ LIST_PROMPTS_KEY →
         queryCache (MutationCoordinator.perform m o w) !! k = queryCache w !! k.
Proof.
  destruct m as [? ? ? v|v|v|v]; [done|..]; intros _;
    destruct o as [p|e]; cbn;
    unfold creator_onSuccess, updater_onSuccess, deleter_onSuccess; cbn;
    (split; [by rewrite ?setQueryData_settings
            |intros k Hk; by rewrite ?setQueryData_other_key by done]).
Qed.

End facts.
End PromptGridFacts.

(** * More about the settings page *)
Module SettingsFacts.
Import Settings.
Section facts.
Context `{!Externals}.

(** The key of the theme setting: ['@/lib/constants'] as the page imports
    it, not in the constants file. *)
Variable SETTING_DISPLAY_THEME : string.

(** Keys the constants file gives. *)
Definition SETTING_DISPLAY_LANGUAGE : string := "display:language".

(** ** Language and theme *)

(** The language card: the selection kept in [languageRef] and the language
    [i18n] displays. *)
Record LanguageCard := {
  languageRef : string;
  i18n_language : string;
}.

(** [onValueChange] of the select. *)
Definition SettingLanguage_onValueChange (v : string) (c : LanguageCard)
    : LanguageCard :=
  {| languageRef := v; i18n_language := i18n_language c |}.

(** [onSaveClick]: the variables [updater] is called with. *)
Definition SettingLanguage_onSaveClick (c : LanguageCard) : Setting :=
  {| Setting.key := SETTING_DISPLAY_LANGUAGE; Setting.value := languageRef c |}.

(** The response to the save.  The callback given to [useUpsertSetting]
    reads [languageRef.current] when it runs: it changes the language of
    [i18n] (kept in the card) and updates the store. *)
Definition SettingLanguage_response (c : LanguageCard) (variables : Setting)
    (outcome : Outcome Setting) (w : World) : LanguageCard * World :=
  let languageLabel := t "page-settings:label:language" [] in
  (match outcome with
   | Resolved _ => {| languageRef := languageRef c; i18n_language := languageRef c |}
   | Rejected _ => c
   end,
   useUpsertSetting
     (t "page-settings:message:change-setting-success" [("setting", languageLabel)])
     (t "page-settings:message:change-setting-failure" [("setting", languageLabel)])
     (updateSetting {| Setting.key := SETTING_DISPLAY_LANGUAGE;
                       Setting.value := languageRef c |})
     variables outcome w).

(** The theme card: the selection kept in [themeRef] and the theme of
    [useTheme]. *)
Record ThemeCard := {
  themeRef : string;
  theme : string;
}.

Definition SettingTheme_onValueChange (v : string) (c : ThemeCard) : ThemeCard :=
  {| themeRef := v; theme := theme c |}.

Definition SettingTheme_onSaveClick (c : ThemeCard) : Setting :=
  {| Setting.key := SETTING_DISPLAY_THEME; Setting.value := themeRef c |}.

(** The callback calls [setTheme] only when the selection differs from the
    theme in use. *)
Definition SettingTheme_response (c : ThemeCard) (variables : Setting)
    (outcome : Outcome Setting) (w : World) : ThemeCard * World :=
  let themeLabel := t "page-settings:label:theme" [] in
  (match outcome with
   | Resolved _ =>
       if bool_decide (themeRef c ≠ theme c)
       then {| themeRef := themeRef c; theme := themeRef c |}
       else c
   | Rejected _ => c
   end,
   useUpsertSetting
     (t "page-settings:message:change-setting-success" [("setting", themeLabel)])
     (t "page-settings:message:change-setting-failure" [("setting", themeLabel)])
     (updateSetting {| Setting.key := SETTING_DISPLAY_THEME;
                       Setting.value := themeRef c |})
     variables outcome w).

(** ** Typing into a numeric card *)

(** The user types into the input element the ref points to. *)
Definition onInput (v : string) (c : NumberCard) : NumberCard :=
  {| inputValue := Some v; error := error c |}.

(** ** Proxy *)


(** *** Lemmas *)

Lemma context_length_accepts (c : NumberCard) :
  is_Some (SettingContextLength_onSaveClick c).2 ↔
  Zod.coerces_to_integer_in 0 65535 (inputValue c).
Proof.
  unfold SettingContextLength_onSaveClick. cbv zeta.
  destruct (Zod.safeParse _ (inputValue c)) as [d|i] eqn:Hp; simpl.
  - apply Zod.safeParse_range_Success in Hp as [_ Hc]. split; [done|eauto].
  - split; [by intros [? ?]|]. intros Hc.
    pose proof (proj2 (Zod.safeParse_range_Success 0 65535 (inputValue c) _)
                  (conj eq_refl Hc)). congruence.
Qed.

Lemma max_tokens_accepts (c : NumberCard) :
  is_Some (SettingMaxTokens_onSaveClick c).2 ↔
  Zod.coerces_to_integer_in 1 65535 (inputValue c).
Proof.
  unfold SettingMaxTokens_onSaveClick. cbv zeta.
  destruct (Zod.safeParse _ (inputValue c)) as [d|i] eqn:Hp; simpl.
  - apply Zod.safeParse_range_Success in Hp as [_ Hc]. split; [done|eauto].
  - split; [by intros [? ?]|]. intros Hc.
    pose proof (proj2 (Zod.safeParse_range_Success 1 65535 (inputValue c) _)
                  (conj eq_refl Hc)). congruence.
Qed.

(** *** Properties *)

(** X8. When the save of the language or of the theme succeeds, the store
    and the interface take the selection of the moment the response is
    handled, whatever value was submitted; when it fails, the store and the
    interface keep what they had. *)
Theorem display_settings_follow_selection (lc : LanguageCard) (tc : ThemeCard)
    (variables data : Setting) (error : CommandError) (w : World) :
  let saved_l := SettingLanguage_response lc variables (Resolved data) w in
  let failed_l := SettingLanguage_response lc variables (Rejected error) w in
  let saved_t := SettingTheme_response tc variables (Resolved data) w in
  let failed_t := SettingTheme_response tc variables (Rejected error) w in
  (settings saved_l.2 !! SETTING_DISPLAY_LANGUAGE = Some (languageRef lc)
   ∧ i18n_language saved_l.1 = languageRef lc)
  ∧ (settings failed_l.2 = settings w ∧ failed_l.1 = lc)
  ∧ (settings saved_t.2 !! SETTING_DISPLAY_THEME = Some (themeRef tc)
     ∧ theme saved_t.1 = themeRef tc)
  ∧ (settings failed_t.2 = settings w ∧ failed_t.1 = tc).
Proof.
  cbn. split_and!; try done; try apply lookup_insert_eq.
  case_bool_decide as Hne; [done|]. simpl.
  destruct (decide (themeRef tc = theme tc)); [done|]. by destruct Hne.
Qed.

(** X9. Every input the max-tokens card accepts the context-length card
    accepts too, and the inputs only the context-length card accepts are
    those that coerce to zero. *)
Theorem max_tokens_stricter (c : NumberCard) :
  (is_Some (SettingMaxTokens_onSaveClick c).2 →
   is_Some (SettingContextLength_onSaveClick c).2)
  ∧ (is_Some (SettingContextLength_onSaveClick c).2
     ∧ (SettingMaxTokens_onSaveClick c).2 = None ↔
     ∃ q, Number_ (inputValue c) = Finite q ∧ (q == 0)%Q).
Proof.
  rewrite context_length_accepts.
  assert ((SettingMaxTokens_onSaveClick c).2 = None ↔
          ¬ Zod.coerces_to_integer_in 1 65535 (inputValue c)) as Hnone.
  { rewrite <- max_tokens_accepts, eq_None_not_Some. reflexivity. }
  rewrite Hnone, max_tokens_accepts. unfold Zod.coerces_to_integer_in. split.
  - intros (n & q & Hq & Hn & Hr). exists n, q. split_and!; try done; lia.
  - split.
    + intros [(n & q & Hq & Hn & Hr) Hno]. exists q. split; [done|].
      destruct (decide (n = 0)) as [->|Hn0]; [done|].
      destruct Hno. exists n, q. split_and!; try done; lia.
    + intros (q & Hq & H0). split.
      * exists 0, q. split_and!; try done; lia.
      * intros (n & q' & Hq' & Hn & Hr). rewrite Hq in Hq'. simplify_eq.
        rewrite H0 in Hn. apply (proj1 (inject_Z_injective 0 n)) in Hn. lia.
Qed.

(** X10. After a refused save, typing a value that is accepted and saving
    again submits the value, and the error message of the refused save is
    still shown: an accepted save does not clear it. *)
Theorem error_survives_corrected_save (c : NumberCard) (v : string) :
  ¬ Zod.coerces_to_integer_in 0 65535 (inputValue c) →
  Zod.coerces_to_integer_in 0 65535 (Some v) →
  let refused := SettingContextLength_onSaveClick c in
  let corrected := SettingContextLength_onSaveClick (onInput v refused.1) in
  refused.2 = None
  ∧ corrected.2 = Some {| Setting.key := SETTING_MODELS_CONTEXT_LENGTH;
                          Setting.value := Number_toString (Number_ (Some v)) |}
  ∧ error corrected.1 = error refused.1
  ∧ error corrected.1
    = t "error:validation:invalid-int-minmax"
        [("value", t "page-settings:label:context-length" []);
         ("min", "0"); ("max", "65535")].
Proof.
  intros Hbad Hgood. cbv zeta.
  destruct (Zod.safeParse_range_Failure 0 65535 (inputValue c) Hbad)
    as [issues Hf].
  pose proof (proj2 (Zod.safeParse_range_Success 0 65535 (Some v) _)
                (conj eq_refl Hgood)) as Hs.
  unfold SettingContextLength_onSaveClick. cbv zeta.
  rewrite Hf. simpl. rewrite Hs. done.
Qed.

(** X11. The auto-save effect runs once per change: when the card renders
    again with nothing changed, the effect makes no call and the card stays
    as it is. *)
Theorem autosave_effect_settles (c : ProxyCard) :
  let c' := (autoSave_effect c).1 in
  rendered c' ∧ autoSave_effect c' = (c', []).
Proof.
  cbv zeta. unfold autoSave_effect, rendered.
  case_decide as Hd; simpl.
  - split; [done|]. by rewrite decide_True.
  - split; [done|]. unfold useProxy. simpl. by rewrite decide_True.
Qed.

(** X12. Whatever the card, the effect makes at most one call, and a call
    it makes is the upsert of the proxy setting with the form's values, made
    only when the saved setting is on and the form's switch is off. *)
Theorem autosave_call_shape (c : ProxyCard) (v : Setting) :
  v ∈ (autoSave_effect c).2 →
  (autoSave_effect c).2 = [v]
  ∧ v = {| Setting.key := SETTING_NETWORK_PROXY;
           Setting.value := JSON_ProxySetting (formValues c) |}
  ∧ ProxySetting.on (proxySetting c) = true
  ∧ ProxySetting.on (formValues c) = false.
Proof.
  unfold autoSave_effect, useProxy. case_decide; simpl.
  { by intros ?%elem_of_nil. }
  destruct (ProxySetting.on (proxySetting c)), (ProxySetting.on (formValues c));
    simpl; try by intros ?%elem_of_nil.
  intros ->%list_elem_of_singleton. done.
Qed.


End facts.
End SettingsFacts.

(** * More about the remote models selector *)
Module SelectorFacts.
Import RemoteModelsSelector.
Section facts.
Context `{!Externals}.

(** The key of the remote-models query: ['@/lib/hooks'], not in the
    sources. *)
Variable LIST_REMOTE_MODELS_KEY : QueryKey.

(** [queryClient.removeQueries({ queryKey, exact: true })]: the query with
    exactly this key is removed. *)
Definition removeQueries_exact {V : Type} (queryKey : QueryKey)
    (cache : gmap QueryKey V) : gmap QueryKey V :=
  delete queryKey cache.

(** The cached remote-model lists, and the values of [provider] and
    [apiKey] the invalidation effect last ran with ([None] before the first
    render; [queryClient] keeps its identity). *)
Record RemoteQueries := {
  remoteCache : gmap QueryKey (list RemoteModel);
  invalidationDeps : option (string * string);
}.

(** The invalidation effect, run after a render of the selector. *)
Definition invalidation_effect (s : Selector) (r : RemoteQueries)
    : RemoteQueries :=
  let deps := (provider s, apiKey s) in
  if decide (invalidationDeps r = Some deps) then r
  else {| remoteCache := removeQueries_exact LIST_REMOTE_MODELS_KEY (remoteCache r);
          invalidationDeps := Some deps |}.

(** The parent renders the selector with other props. *)
Definition with_props (provider' apiKey' : string) (s : Selector) : Selector :=
  {| provider := provider'; apiKey := apiKey'; enabled := enabled s;
     form_apiKey := form_apiKey s; form_model := form_model s;
     form_errors := form_errors s |}.

(** The comparison [select] sorts with. *)
Definition by_created_desc (a b : RemoteModel) : Z :=
  RemoteModel.created b - RemoteModel.created a.

(** *** Lemmas *)

Lemma Array_sort_of_sorted {A : Type} (compareFn : A → A → Z) (l : list A) :
  Sorted (λ a b, compareFn a b ≤ 0) l → Array_sort compareFn l = l.
Proof.
  induction 1 as [|x l Hl IH Hx]; simpl; [done|].
  rewrite IH. destruct Hx as [|y l' Hxy]; simpl; [done|].
  by rewrite bool_decide_eq_true_2.
Qed.

Lemma select_raw_Sorted raw :
  Sorted (λ a b, by_created_desc a b ≤ 0) (select raw).
Proof.
  apply (Array_sort_Sorted by_created_desc). intros a b.
  unfold by_created_desc. lia.
Qed.

Instance newest_first_Transitive : Transitive newest_first.
Proof. intros a b c. unfold newest_first. lia. Qed.

(** Inserting [x] in front of a list puts it before every element with its
    timestamp. *)
Lemma filter_sort_insert (c : Z) (x : RemoteModel) (l : list RemoteModel) :
  filter (λ m, RemoteModel.created m = c) (sort_insert by_created_desc x l)
  = filter (λ m, RemoteModel.created m = c) (x :: l).
Proof.
  induction l as [|y l IH]; simpl; [done|].
  case_bool_decide as Hxy; [done|].
  unfold by_created_desc in Hxy.
  rewrite filter_cons, IH.
  destruct (decide (RemoteModel.created y = c)) as [Hy|Hy].
  - rewrite (filter_cons_False _ x) by lia.
    rewrite (filter_cons_False _ x) by lia.
    by rewrite filter_cons_True.
  - rewrite !(filter_cons _ x). case_decide; by rewrite filter_cons_False.
Qed.

(** *** Properties *)

(** X14. Sorting a list that [select] has sorted changes nothing: the sort
    is done in place on the cached list, and running [select] again on it
    gives the same list. *)
Theorem select_twice (raw : list RemoteModel) :
  select (select raw) = select raw.
Proof.
  unfold select at 1. apply Array_sort_of_sorted. apply select_raw_Sorted.
Qed.

(** X15. For a non-empty list, the first entry displayed, which becomes the
    selection when the form has none, is an entry of the list returned and
    no entry of that list was created later. *)
Theorem first_is_newest (raw : list RemoteModel) (s : Selector) :
  raw ≠ [] →
  form_model s = None →
  ∃ first,
    first ∈ raw
    ∧ (∀ m, m ∈ raw → RemoteModel.created m ≤ RemoteModel.created first)
    ∧ head (select raw) = Some first
    ∧ form_model (defaultSelection_effect (Some (select raw)) s)
      = Some (RemoteModel.id first).
Proof.
  intros Hraw Hm.
  destruct (select_nonempty raw Hraw) as (first & rest & Hs).
  assert (select raw ≡ₚ raw) as Hp
    by apply (Array_sort_Permutation by_created_desc).
  pose proof (select_Sorted raw) as Hsorted.
  apply Sorted_StronglySorted in Hsorted; [|apply _].
  rewrite Hs in Hp, Hsorted. apply StronglySorted_inv in Hsorted as [_ Hall].
  exists first. split_and!.
  - rewrite <- Hp. by left.
  - intros m Hin. rewrite <- Hp in Hin.
    apply elem_of_cons in Hin as [->|Hin]; [done|].
    rewrite Forall_forall in Hall. by apply Hall.
  - by rewrite Hs.
  - rewrite Hs. unfold defaultSelection_effect. by rewrite Hm.
Qed.

(** X16. Models with the same [created] timestamp are displayed in the order
    in which the provider returned them. *)
Theorem select_keeps_order_of_ties (c : Z) (raw : list RemoteModel) :
  filter (λ m, RemoteModel.created m = c) (select raw)
  = filter (λ m, RemoteModel.created m = c) raw.
Proof.
  induction raw as [|x raw IH]; [done|].
  change (select (x :: raw)) with (sort_insert by_created_desc x (select raw)).
  rewrite filter_sort_insert, !filter_cons, IH. done.
Qed.

(** X17. The default-selection effect never replaces a selection that is
    not empty, whether or not it is in the list, does nothing without a
    list or with an empty one, and running it twice is running it once. *)
Theorem default_selection_keeps_choice (data : option (list RemoteModel))
    (s : Selector) :
  (∀ v, form_model s = Some v → v ≠ "" → defaultSelection_effect data s = s)
  ∧ defaultSelection_effect None s = s
  ∧ defaultSelection_effect (Some []) s = s
  ∧ defaultSelection_effect data (defaultSelection_effect data s)
    = defaultSelection_effect data s.
Proof.
  split_and!; [|done|done|].
  - intros v Hv Hne. unfold defaultSelection_effect.
    destruct data as [[|first rest]|]; [done| |done]. rewrite Hv.
    rewrite bool_decide_eq_false_2; [done|].
    destruct v; [done|]. simpl. lia.
  - unfold defaultSelection_effect.
    destruct data as [[|first rest]|]; [done| |done].
    destruct (form_model s) as [v|] eqn:Hv; simpl.
    + case_bool_decide as Hlen; simpl; [|by rewrite Hv, bool_decide_eq_false_2].
      by case_bool_decide.
    + by case_bool_decide.
Qed.

(** X18. A click on the load-models button with a non-empty apiKey enables
    the fetch and leaves the form alone: it clears no error and keeps the
    model field.  Clicking twice is clicking once. *)
Theorem load_click_enables_and_keeps_form (s : Selector) :
  (form_apiKey s ≠ "" →
     enabled (onClick s) = true
     ∧ form_errors (onClick s) = form_errors s
     ∧ form_model (onClick s) = form_model s)
  ∧ onClick (onClick s) = onClick s.
Proof.
  unfold onClick. split.
  - intros Hk. rewrite bool_decide_eq_false_2; [done|].
    destruct (form_apiKey s); [done|]. simpl. lia.
  - unfold form_setError, setEnabled.
    destruct (bool_decide (String.length (form_apiKey s) = 0%nat)) eqn:Hlen;
      simpl; rewrite Hlen; simpl; [|done].
    by rewrite insert_insert_eq.
Qed.

(** X19. When the provider or the apiKey differs from the one the
    invalidation effect last ran with, and on the first render, the effect
    removes the query stored under exactly [LIST_REMOTE_MODELS_KEY] and no
    other query. *)
Theorem invalidation_removes_exact_key (provider' apiKey' : string)
    (s : Selector) (r : RemoteQueries) :
  invalidationDeps r ≠ Some (provider', apiKey') →
  let r' := invalidation_effect (with_props provider' apiKey' s) r in
  remoteCache r' !! LIST_REMOTE_MODELS_KEY = None
  ∧ (∀ key, key ≠ LIST_REMOTE_MODELS_KEY →
            remoteCache r' !! key = remoteCache r !! key)
  ∧ invalidationDeps r' = Some (provider', apiKey').
Proof.
  intros Hdeps. cbv zeta. unfold invalidation_effect. simpl.
  rewrite decide_False by done. simpl. unfold removeQueries_exact. split_and!.
  - apply lookup_delete_eq.
  - intros key Hkey. by apply lookup_delete_ne.
  - done.
Qed.

(** X20. While the provider and the apiKey stay what they were, the effect
    removes nothing: a render after the effect has run leaves the cached
    lists alone, and so running the effect twice is running it once. *)
Theorem invalidation_runs_once (s : Selector) (r : RemoteQueries) :
  let r' := invalidation_effect s r in
  invalidation_effect s r' = r'
  ∧ ∀ cache, invalidation_effect s
               {| remoteCache := cache; invalidationDeps := invalidationDeps r' |}
             = {| remoteCache := cache; invalidationDeps := invalidationDeps r' |}.
Proof.
  cbv zeta. unfold invalidation_effect.
  destruct (decide (invalidationDeps r = Some (provider s, apiKey s)))
    as [Hd|Hd]; simpl.
  - rewrite decide_True by done. split; [done|].
    intros cache. by rewrite decide_True by done.
  - rewrite decide_True by done. split; [done|].
    intros cache. by rewrite decide_True by done.
Qed.

End facts.
End SelectorFacts.

(** * The state of the new-model dialog *)
Module NewModelDialog.
Import ModelFormDialog.









End NewModelDialog.

(** * Scenarios for the properties above *)
Module MoreScenarios.
Import Scenarios.

#[local] Existing Instance scenario.

Definition greeting_v2 : Prompt :=
  {| Prompt.id := 1; Prompt.alias := "hello"; Prompt.content := "Say hello twice";
     Prompt.createdAt := Some "2024-03-01" |}.

(** The saved proxy is on, the switch has just been turned off and the
    effect has not run yet. *)
Definition card_turned_off : Settings.ProxyCard :=
  {| Settings.proxySetting := proxy_on; Settings.formValues := proxy_off;
     Settings.effectDeps := Some (true, true) |}.

Definition remote_key : QueryKey := ["list-remote-models"].

(** A list cached under the key while the selector had another apiKey. *)
Definition stale_queries : SelectorFacts.RemoteQueries :=
  {| SelectorFacts.remoteCache := {[ remote_key := [m1; m2] ]};
     SelectorFacts.invalidationDeps := Some ("OpenAI", "A") |}.

Lemma two_prompts_cached :
  PromptGrid.cached_prompts two_prompts = Some [greeting; summary].
Proof. reflexivity. Qed.

(** Witness of X1: the greeting is edited. *)
Lemma update_replaces_first_match_witness :
  ∃ i old,
    [greeting; summary] !! i = Some old
    ∧ Prompt.id old = Prompt.id greeting_v2
    ∧ (∀ j q, (j < i)%nat → [greeting; summary] !! j = Some q →
              Prompt.id q ≠ Prompt.id greeting_v2)
    ∧ ∃ l', PromptGrid.cached_prompts
              (PromptGrid.updater greeting_v2 (Resolved greeting_v2) two_prompts)
            = Some l'
        ∧ length l' = length [greeting; summary]
        ∧ l' !! i = Some greeting_v2
        ∧ ∀ j, j ≠ i → l' !! j = [greeting; summary] !! j.
Proof.
  apply (PromptGridFacts.update_replaces_first_match greeting_v2 greeting_v2
           [greeting; summary] two_prompts two_prompts_cached).
  change (1 ∈ [1; 2]). by left.
Defined.

Lemma review_is_fresh :
  PromptGrid.fresh_id (Prompt.id review) (PromptGrid.cached_prompts two_prompts).
Proof.
  change (3 ∉ [1; 2]).
  repeat (apply not_elem_of_cons; split; [lia|]). apply not_elem_of_nil.
Qed.

(** Witness of X2: a response for a prompt that is not cached. *)
Lemma unknown_id_leaves_cache_witness :
  queryCache (PromptGrid.updater review (Resolved review) two_prompts)
    = queryCache two_prompts
  ∧ queryCache (PromptGrid.deleter 3 (Resolved review) two_prompts)
    = queryCache two_prompts
  ∧ signals (PromptGrid.updater review (Resolved review) two_prompts)
    = signals two_prompts
      ++ [ToastSuccess (t "page-prompts:message:update-prompt-success" [])]
  ∧ signals (PromptGrid.deleter 3 (Resolved review) two_prompts)
    = signals two_prompts
      ++ [ToastSuccess (t "page-prompts:message:delete-prompt-success" [])].
Proof.
  exact (PromptGridFacts.unknown_id_leaves_cache review review 3 two_prompts
           review_is_fresh).
Defined.

(** Witness of X3: the greeting is deleted. *)
Lemma delete_removes_that_id_witness :
  ∃ l', PromptGrid.cached_prompts
          (PromptGrid.deleter 1 (Resolved greeting) two_prompts) = Some l'
    ∧ (l' `sublist_of` [greeting; summary])
    ∧ (Prompt.id greeting ∉ PromptGridFacts.ids l')
    ∧ ∀ q, q ∈ l' ↔ q ∈ [greeting; summary] ∧ Prompt.id q ≠ Prompt.id greeting.
Proof.
  exact (PromptGridFacts.delete_removes_that_id 1 greeting [greeting; summary]
           two_prompts two_prompts_cached).
Defined.

(** Witness of X4: the review is created and deleted again. *)
Lemma create_then_delete_witness :
  PromptGrid.cached_prompts
    (PromptGrid.deleter 3 (Resolved review)
       (PromptGrid.creator new_review (Resolved review) two_prompts))
  = Some (default [] (PromptGrid.cached_prompts two_prompts)).
Proof.
  exact (PromptGridFacts.create_then_delete new_review 3 review two_prompts
           review_is_fresh).
Defined.

(** Witness of X6: a failed delete. *)
Lemma prompt_mutations_touch_only_prompts_witness :
  let w' := MutationCoordinator.perform (MutationCoordinator.DeletePrompt 1)
              (Rejected {| message := "not found" |}) two_prompts in
  settings w' = settings two_prompts
  ∧ ∀ k, k ≠ LIST_PROMPTS_KEY → queryCache w' !! k = queryCache two_prompts !! k.
Proof.
  exact (PromptGridFacts.prompt_mutations_touch_only_prompts
           (MutationCoordinator.DeletePrompt 1)
           (Rejected {| message := "not found" |}) two_prompts I).
Defined.

Lemma hundred_thousand_refused :
  ¬ Zod.coerces_to_integer_in 0 65535 (Some "100000").
Proof.
  intros (n & q & Hq & Hn & Hr). vm_compute in Hq. injection Hq as <-.
  apply (proj1 (inject_Z_injective 100000 n)) in Hn. lia.
Qed.

Lemma five_accepted : Zod.coerces_to_integer_in 0 65535 (Some "5").
Proof.
  exists 5, (inject_Z 5). split_and!; [vm_compute; reflexivity|reflexivity|lia|lia].
Qed.

(** Witness of X10: ["100000"] is refused, then ["5"] is typed and saved. *)
Lemma error_survives_corrected_save_witness :
  let c := {| Settings.inputValue := Some "100000"; Settings.error := "" |} in
  let refused := Settings.SettingContextLength_onSaveClick c in
  let corrected :=
    Settings.SettingContextLength_onSaveClick (SettingsFacts.onInput "5" refused.1) in
  refused.2 = None
  ∧ corrected.2 = Some {| Setting.key := SETTING_MODELS_CONTEXT_LENGTH;
                          Setting.value := Number_toString (Number_ (Some "5")) |}
  ∧ Settings.error corrected.1 = Settings.error refused.1
  ∧ Settings.error corrected.1
    = t "error:validation:invalid-int-minmax"
        [("value", t "page-settings:label:context-length" []);
         ("min", "0"); ("max", "65535")].
Proof.
  exact (SettingsFacts.error_survives_corrected_save
           {| Settings.inputValue := Some "100000"; Settings.error := "" |} "5"
           hundred_thousand_refused five_accepted).
Defined.

(** Witness of X12: the call the effect makes when the switch was turned
    off. *)
Lemma autosave_call_shape_witness :
  let v := {| Setting.key := SETTING_NETWORK_PROXY;
              Setting.value := JSON_ProxySetting proxy_off |} in
  (Settings.autoSave_effect card_turned_off).2 = [v]
  ∧ v = {| Setting.key := SETTING_NETWORK_PROXY;
           Setting.value := JSON_ProxySetting (Settings.formValues card_turned_off) |}
  ∧ ProxySetting.on (Settings.proxySetting card_turned_off) = true
  ∧ ProxySetting.on (Settings.formValues card_turned_off) = false.
Proof.
  apply (SettingsFacts.autosave_call_shape card_turned_off).
  by left.
Defined.


(** Witness of X15 on the list of the remote-models scenario. *)
Lemma first_is_newest_witness :
  ∃ first,
    first ∈ [m1; m2]
    ∧ (∀ m, m ∈ [m1; m2] → RemoteModel.created m ≤ RemoteModel.created first)
    ∧ head (RemoteModelsSelector.select [m1; m2]) = Some first
    ∧ RemoteModelsSelector.form_model
        (RemoteModelsSelector.defaultSelection_effect
           (Some (RemoteModelsSelector.select [m1; m2])) fresh_selector)
      = Some (RemoteModel.id first).
Proof.
  apply (SelectorFacts.first_is_newest [m1; m2] fresh_selector);
    [discriminate|reflexivity].
Defined.

(** Witness of X19: the apiKey changes from ["A"] to ["B"]. *)
Lemma invalidation_removes_exact_key_witness :
  let r' := SelectorFacts.invalidation_effect remote_key
              (SelectorFacts.with_props "OpenAI" "B" fresh_selector)
              stale_queries in
  SelectorFacts.remoteCache r' !! remote_key = None
  ∧ (∀ key, key ≠ remote_key →
            SelectorFacts.remoteCache r' !! key
            = SelectorFacts.remoteCache stale_queries !! key)
  ∧ SelectorFacts.invalidationDeps r' = Some ("OpenAI", "B").
Proof.
  apply (SelectorFacts.invalidation_removes_exact_key remote_key "OpenAI" "B"
           fresh_selector stale_queries).
  discriminate.
Defined.

End MoreScenarios.
